(** * go-shims x/log: a structured-logging facade over logrus

    Shallow embedding of the package [log] (context field store, caller
    hook, logger facade, global registry) and the properties its
    specification states about it.

    Conventions of the embedding:
    - a Go [string] is a Rocq [string] (a sequence of bytes);
    - a Go [any] is a [value]: a dynamic type tag together with the datum;
    - a Go map is a reference: a [MetaData] value is [None] (the nil map)
      or [Some r], an address into a [heap] of bags, so that sharing of a
      bag between contexts is visible in the model;
    - a [context.Context] is the chain of [valueCtx] nodes the standard
      library builds over [context.Background()]; the nil interface is
      not a context (package context forbids passing one);
    - [logrus.Level] is an unsigned number, [PanicLevel] being 0. *)

From stdpp Require Import gmap strings list fin_maps.
From Stdlib Require Import ZArith NArith Ascii DecimalString.

Local Open Scope string_scope.
Local Open Scope list_scope.
Local Open Scope stdpp_scope.

(** ** Dynamic values and context keys *)

Definition loc := nat.

(** The dynamic types a value of static type [any] is given here. Two maps
    with the same layout but different named types are different dynamic
    types: [VMetaData] is [log.MetaData], [VMap] is the unnamed
    [map[string]interface{}]. *)
Inductive value : Type :=
  | VNil
  | VString (s : string)
  | VInt (z : Z)
  | VBool (b : bool)
  | VMetaData (m : option loc)
  | VMap (m : option loc)
  | VError (msg : string).

(** A context key is an [any] compared with [==]: equal keys have the same
    dynamic type and the same datum. [ContextKey] is the package's private
    type [contextKey]; [StringKey] is a plain [string]. *)
Inductive key : Type :=
  | ContextKey (s : string)
  | StringKey (s : string)
  | IntKey (z : Z).

#[global] Instance value_eq_dec : EqDecision value.
Proof. solve_decision. Defined.

#[global] Instance key_eq_dec : EqDecision key.
Proof. solve_decision. Defined.

Definition RequestIDKey : key := ContextKey "request_id".
Definition UserIDKey : key := ContextKey "user_id".
Definition TraceIDKey : key := ContextKey "trace_id".
Definition SpanIDKey : key := ContextKey "span_id".
Definition CustomFieldsKey : key := ContextKey "custom_fields".

(** [string(RequestIDKey)] and the like: the conversion of a key of the
    package back to its underlying string. *)
Definition key_string (k : key) : string :=
  match k with
  | ContextKey s => s
  | StringKey s => s
  | IntKey _ => ""
  end.

(** ** Contexts *)

Inductive Context : Type :=
  | Background
  | valueCtx (parent : Context) (k : key) (val : value).

(** [context.WithValue]. *)
Definition WithValue (parent : Context) (k : key) (val : value) : Context :=
  valueCtx parent k val.

(** [ctx.Value(key)]: the innermost binding of [key], the nil interface
    when there is none. *)
Fixpoint Value (ctx : Context) (k : key) : value :=
  match ctx with
  | Background => VNil
  | valueCtx parent k' val => if decide (k' = k) then val else Value parent k
  end.

(** [k] is the key of some node of the chain. *)
Fixpoint bound (k : key) (ctx : Context) : bool :=
  match ctx with
  | Background => false
  | valueCtx parent k' _ => bool_decide (k' = k) || bound k parent
  end.

(** The comma-ok type assertions [v.(string)] and [v.(MetaData)]. *)
Definition assert_string (v : value) : string * bool :=
  match v with
  | VString s => (s, true)
  | _ => ("", false)
  end.

Definition assert_MetaData (v : value) : option loc * bool :=
  match v with
  | VMetaData m => (m, true)
  | _ => (None, false)
  end.

(** ** The heap of bags *)

Abbreviation heap := (list (gmap string value)).

(** [make(MetaData)]: a fresh map, at an address no allocated map has. *)
Definition make_map (h : heap) : heap * loc := (h ++ [∅], length h).

(** [m[k] = v] on the map at address [r]. *)
Definition store (h : heap) (r : loc) (k : string) (v : value) : heap :=
  match h !! r with
  | Some b => <[r := <[k := v]> b]> h
  | None => h
  end.

(** Reading through a map value; the nil map reads as the empty map. *)
Definition deref (h : heap) (m : option loc) : gmap string value :=
  match m with
  | Some r => default ∅ (h !! r)
  | None => ∅
  end.

(** [for k, v := range src { dst[k] = v }]. *)
Definition copy_into (h : heap) (dst : loc) (src : gmap string value) : heap :=
  map_fold (fun k v h' => store h' dst k v) h src.

(** ** The context field store *)

Definition WithRequestID (ctx : Context) (reqID : string) : Context :=
  WithValue ctx RequestIDKey (VString reqID).

Definition WithUserID (ctx : Context) (userID : string) : Context :=
  WithValue ctx UserIDKey (VString userID).

Definition WithTraceID (ctx : Context) (traceID : string) : Context :=
  WithValue ctx TraceIDKey (VString traceID).

Definition WithSpanID (ctx : Context) (spanID : string) : Context :=
  WithValue ctx SpanIDKey (VString spanID).

Definition WithCustomField (h : heap) (ctx : Context) (k : string) (v : value)
  : heap * Context :=
  let '(fields, ok) := assert_MetaData (Value ctx CustomFieldsKey) in
  let '(h1, fields1) :=
    match ok, fields with
    | true, Some old =>
        let '(h', newFields) := make_map h in
        (copy_into h' newFields (deref h (Some old)), newFields)
    | _, _ => make_map h
    end in
  (store h1 fields1 k v, WithValue ctx CustomFieldsKey (VMetaData (Some fields1))).

Definition GetRequestID (ctx : Context) : string * bool :=
  assert_string (Value ctx RequestIDKey).

Definition GetUserID (ctx : Context) : string * bool :=
  assert_string (Value ctx UserIDKey).

Definition GetTraceID (ctx : Context) : string * bool :=
  assert_string (Value ctx TraceIDKey).

Definition GetSpanID (ctx : Context) : string * bool :=
  assert_string (Value ctx SpanIDKey).

Definition GetCustomFields (ctx : Context) : option loc * bool :=
  assert_MetaData (Value ctx CustomFieldsKey).

(** What a holder of [ctx] reads for the custom field [k]:
    [fields, _ := GetCustomFields(ctx); fields[k]]. *)
Definition custom_field (h : heap) (ctx : Context) (k : string) : option value :=
  deref h (GetCustomFields ctx).1 !! k.

(** ** Strings *)

(** [strings.LastIndex(s, sep)]: the index of the last occurrence of [sep]
    in [s], -1 when there is none. *)
Fixpoint LastIndex (s sep : string) : Z :=
  match s with
  | EmptyString => if String.prefix sep s then 0 else -1
  | String _ s' =>
      let i := LastIndex s' sep in
      if (i =? -1)%Z then (if String.prefix sep s then 0 else -1)
      else (i + 1)%Z
  end.

(** The slice [s[i:]]. *)
Fixpoint drop_bytes (n : nat) (s : string) : string :=
  match n, s with
  | O, _ => s
  | S n', String _ s' => drop_bytes n' s'
  | S _, EmptyString => EmptyString
  end.

Definition slice_from (s : string) (i : Z) : string := drop_bytes (Z.to_nat i) s.

(** [fmt.Sprintf("%d", n)]. *)
Definition decimal (n : Z) : string := NilZero.string_of_int (Z.to_int n).

(** The byte [c] occurs in [s]. *)
Fixpoint occurs (c : ascii) (s : string) : bool :=
  match s with
  | EmptyString => false
  | String a s' => bool_decide (a = c) || occurs c s'
  end.

(** The specification's words, "everything up to the last separator
    stripped": [t] is what follows the last [c] of [s], and is [s] itself
    when [s] has no [c]. *)
Definition stripped_to_last (c : ascii) (s t : string) : Prop :=
  (occurs c s = false /\ t = s) \/
  (exists pre, s = pre +:+ String c t /\ occurs c t = false).

(** ** The caller hook *)

(** A frame of the goroutine's stack, as [runtime.Caller] and
    [runtime.FuncForPC(pc).Name()] report it. *)
Record Frame : Type := {
  frame_func : string;
  frame_file : string;
  frame_line : Z
}.

(** [runtime.Caller(skip)] on a stack whose first frame is the function
    that calls it: the frame [skip] levels up, or not ok. *)
Definition Caller (stack : list Frame) (skip : nat) : option Frame := stack !! skip.

Definition CallerFileFieldKey : string := "file".
Definition CallerFuncFieldKey : string := "func".
Definition EchoCallerSkipFrames : nat := 9.
Definition CallerSkipFrames : nat := EchoCallerSkipFrames.

Record CallerHook : Type := { SkipFrames : nat }.

Definition NewCallerHook (skipFrames : nat) : CallerHook :=
  {| SkipFrames := skipFrames |}.

(** The two reductions of the function name in [Fire]. *)
Definition strip_to (sep : string) (funcName : string) : string :=
  let last := LastIndex funcName sep in
  if (last =? -1)%Z then funcName else slice_from funcName (last + 1).

Definition bare_name (funcName : string) : string :=
  strip_to "." (strip_to "/" funcName).

(** ** The logging engine (logrus), as far as the package uses it *)

Module logrus.

Definition Level := N.
Definition PanicLevel : Level := 0%N.
Definition FatalLevel : Level := 1%N.
Definition ErrorLevel : Level := 2%N.
Definition WarnLevel : Level := 3%N.
Definition InfoLevel : Level := 4%N.
Definition DebugLevel : Level := 5%N.
Definition TraceLevel : Level := 6%N.

Definition AllLevels : list Level :=
  [PanicLevel; FatalLevel; ErrorLevel; WarnLevel; InfoLevel; DebugLevel; TraceLevel].

(** An [io.Writer]. *)
Inductive Writer : Type :=
  | NoWriter
  | Stdout
  | Stderr
  | File (path : string)
  | Buffer (id : nat).

Inductive Formatter : Type :=
  | JSONFormatter (TimestampFormat : string)
      (DisableTimestamp DisableHTMLEscape PrettyPrint : bool)
  | TextFormatter (FullTimestamp : bool) (TimestampFormat : string)
      (ForceColors DisableColors : bool).

Definition is_JSON (f : Formatter) : bool :=
  match f with JSONFormatter _ _ _ _ => true | TextFormatter _ _ _ _ => false end.

Module Entry.
Record t : Type := {
  Data : gmap string value;
  Level : logrus.Level;
  Message : string;
  Context : option Context
}.
End Entry.

Module Logger.
Record t : Type := {
  Out : Writer;
  Hooks : list CallerHook;
  Formatter : logrus.Formatter;
  Level : logrus.Level
}.
End Logger.

(** [logrus.New()]. *)
Definition New : Logger.t :=
  {| Logger.Out := Stderr;
     Logger.Hooks := [];
     Logger.Formatter := TextFormatter false "" false false;
     Logger.Level := InfoLevel |}.

Definition SetLevel (l : Logger.t) (level : Level) : Logger.t :=
  {| Logger.Out := Logger.Out l;
     Logger.Hooks := Logger.Hooks l;
     Logger.Formatter := Logger.Formatter l;
     Logger.Level := level |}.

Definition SetOutput (l : Logger.t) (output : Writer) : Logger.t :=
  {| Logger.Out := output;
     Logger.Hooks := Logger.Hooks l;
     Logger.Formatter := Logger.Formatter l;
     Logger.Level := Logger.Level l |}.

Definition SetFormatter (l : Logger.t) (f : Formatter) : Logger.t :=
  {| Logger.Out := Logger.Out l;
     Logger.Hooks := Logger.Hooks l;
     Logger.Formatter := f;
     Logger.Level := Logger.Level l |}.

(** [AddHook]: the hook is registered for each of its levels, after
    the hooks already there. *)
Definition AddHook (l : Logger.t) (hook : CallerHook) : Logger.t :=
  {| Logger.Out := Logger.Out l;
     Logger.Hooks := Logger.Hooks l ++ [hook];
     Logger.Formatter := Logger.Formatter l;
     Logger.Level := Logger.Level l |}.

(** [logger.IsLevelEnabled(level)]: [logger.level() >= level]. *)
Definition IsLevelEnabled (l : Logger.t) (level : Level) : bool :=
  (level <=? Logger.Level l)%N.

(** [NewEntry(logger)]: an entry with no field and no context. *)
Definition NewEntry : Entry.t :=
  {| Entry.Data := ∅;
     Entry.Level := PanicLevel;
     Entry.Message := "";
     Entry.Context := None |}.

(** [logger.WithContext(ctx)]: an entry with no field. *)
Definition WithContext (ctx : Context) : Entry.t :=
  {| Entry.Data := ∅;
     Entry.Level := PanicLevel;
     Entry.Message := "";
     Entry.Context := Some ctx |}.

(** [entry.WithField(key, value)]: a derived entry that carries the
    field too, a field of that name being replaced. (logrus refuses a
    field whose value is a function; [value] has no function.) *)
Definition WithField (entry : Entry.t) (k : string) (v : value) : Entry.t :=
  {| Entry.Data := <[k := v]> (Entry.Data entry);
     Entry.Level := Entry.Level entry;
     Entry.Message := Entry.Message entry;
     Entry.Context := Entry.Context entry |}.

End logrus.

(** [CallerHook.Levels]. *)
Definition Levels (hook : CallerHook) : list logrus.Level := logrus.AllLevels.

(** [CallerHook.Fire]: the entry with its fields set, and the error
    returned ([None] is the nil error). [stack] is the stack at the call
    of [runtime.Caller], the frame of [Fire] first. *)
Definition Fire (hook : CallerHook) (stack : list Frame) (entry : logrus.Entry.t)
  : logrus.Entry.t * option string :=
  match Caller stack (SkipFrames hook) with
  | None => (entry, None)
  | Some fr =>
      let funcName := bare_name (frame_func fr) in
      let entry1 :=
        logrus.WithField entry CallerFileFieldKey
          (VString ("file://" +:+ frame_file fr +:+ ":" +:+ decimal (frame_line fr))) in
      let entry2 :=
        logrus.WithField entry1 CallerFuncFieldKey (VString (funcName +:+ "()")) in
      (entry2, None)
  end.

(** [entry.fireHooks()]: the hooks registered for the level of the entry,
    in the order they were added. *)
Definition fireHooks (hooks : list CallerHook) (stack : list Frame)
  (entry : logrus.Entry.t) : logrus.Entry.t :=
  fold_left
    (fun e hook =>
       if bool_decide (logrus.Entry.Level e ∈ Levels hook)
       then (Fire hook stack e).1 else e)
    hooks entry.

(** ** Configuration *)

Definition LogFormat := string.
Definition FormatText : LogFormat := "text".
Definition FormatJSON : LogFormat := "json".

Module Config.
Record t : Type := {
  Level : logrus.Level;
  Format : LogFormat;
  Output : logrus.Writer;
  FilePath : string;
  EnableJSON : bool;
  JSONPretty : bool;
  ReportCaller : bool;
  TimestampFormat : string
}.
End Config.

Definition DefaultConfig : Config.t :=
  {| Config.Level := logrus.InfoLevel;
     Config.Format := FormatJSON;
     Config.Output := logrus.Stdout;
     Config.FilePath := "";
     Config.EnableJSON := false;
     Config.JSONPretty := false;
     Config.ReportCaller := true;
     Config.TimestampFormat := "2006/01/02 15:04:05.000" |}.

(** ** The logger facade *)

Inductive result (A : Type) : Type :=
  | Ok (a : A)
  | Err (err : string).

Arguments Ok {A} a.
Arguments Err {A} err.

(** The lock [mu] of the Go struct is left out: calls are taken one at a
    time. *)
Record LogrusLogger : Type := {
  Logger : logrus.Logger.t;
  config : Config.t
}.

(** What a logging call did: the record handed to the formatter and the
    writer, if any, and whether the process exited. *)
Record outcome : Type := {
  emitted : option logrus.Entry.t;
  exited : bool
}.

Section Facade.

(** [os.OpenFile(path, O_CREATE|O_WRONLY|O_APPEND, 0666)] on the file
    system of the process, and [fmt.Sprintf]. *)
Variable OpenFile : string -> result logrus.Writer.
Variable Sprintf : string -> list value -> string.

Definition NewLogger (cfg : Config.t) : result LogrusLogger :=
  let l := logrus.New in
  let l := logrus.SetLevel l (Config.Level cfg) in
  let opened :=
    if bool_decide (Config.FilePath cfg ≠ "") then
      match OpenFile (Config.FilePath cfg) with
      | Err err => Err err
      | Ok file => Ok (logrus.SetOutput l file)
      end
    else Ok (logrus.SetOutput l (Config.Output cfg)) in
  match opened with
  | Err err => Err err
  | Ok l =>
      let l :=
        if Config.EnableJSON cfg || bool_decide (Config.Format cfg = FormatJSON) then
          logrus.SetFormatter l
            (logrus.JSONFormatter (Config.TimestampFormat cfg) false true
               (Config.JSONPretty cfg))
        else
          logrus.SetFormatter l
            (logrus.TextFormatter true (Config.TimestampFormat cfg) true false) in
      let l :=
        if Config.ReportCaller cfg
        then logrus.AddHook l (NewCallerHook CallerSkipFrames) else l in
      Ok {| Logger := l; config := cfg |}
  end.

(** [entry.log(level, msg)]: level and message are set, the hooks are
    fired, and the entry goes to the formatter and the writer. *)
Definition Entry_log (logger : logrus.Logger.t) (stack : list Frame)
  (entry : logrus.Entry.t) (level : logrus.Level) (msg : string) : logrus.Entry.t :=
  fireHooks (logrus.Logger.Hooks logger) stack
    {| logrus.Entry.Data := logrus.Entry.Data entry;
       logrus.Entry.Level := level;
       logrus.Entry.Message := msg;
       logrus.Entry.Context := logrus.Entry.Context entry |}.

(** [entry.Logf(level, format, args...)]. *)
Definition Entry_Logf (logger : logrus.Logger.t) (stack : list Frame)
  (entry : logrus.Entry.t) (level : logrus.Level)
  (format : string) (args : list value) : option logrus.Entry.t :=
  if logrus.IsLevelEnabled logger level
  then Some (Entry_log logger stack entry level (Sprintf format args))
  else None.

Definition Entry_Debugf logger stack entry format args : outcome :=
  {| emitted := Entry_Logf logger stack entry logrus.DebugLevel format args;
     exited := false |}.

Definition Entry_Infof logger stack entry format args : outcome :=
  {| emitted := Entry_Logf logger stack entry logrus.InfoLevel format args;
     exited := false |}.

Definition Entry_Warnf logger stack entry format args : outcome :=
  {| emitted := Entry_Logf logger stack entry logrus.WarnLevel format args;
     exited := false |}.

Definition Entry_Errorf logger stack entry format args : outcome :=
  {| emitted := Entry_Logf logger stack entry logrus.ErrorLevel format args;
     exited := false |}.

(** [entry.Fatalf]: [Logf] at the fatal level, then [Exit(1)]. *)
Definition Entry_Fatalf logger stack entry format args : outcome :=
  {| emitted := Entry_Logf logger stack entry logrus.FatalLevel format args;
     exited := true |}.

Definition Debugf (l : LogrusLogger) (stack : list Frame)
  (format : string) (args : list value) : outcome :=
  Entry_Debugf (Logger l) stack (logrus.WithContext Background) format args.

Definition Infof (l : LogrusLogger) (stack : list Frame)
  (format : string) (args : list value) : outcome :=
  Entry_Infof (Logger l) stack (logrus.WithContext Background) format args.

Definition Warnf (l : LogrusLogger) (stack : list Frame)
  (format : string) (args : list value) : outcome :=
  Entry_Warnf (Logger l) stack (logrus.WithContext Background) format args.

Definition Errorf (l : LogrusLogger) (stack : list Frame)
  (format : string) (args : list value) : outcome :=
  Entry_Errorf (Logger l) stack (logrus.WithContext Background) format args.

Definition Fatalf (l : LogrusLogger) (stack : list Frame)
  (format : string) (args : list value) : outcome :=
  Entry_Fatalf (Logger l) stack (logrus.WithContext Background) format args.

(** [addContextFields]; [h] is the heap the bag of [ctx] is read in. *)
Definition addContextFields (h : heap) (ctx : Context) (entry : logrus.Entry.t)
  : logrus.Entry.t :=
  let entry :=
    let '(reqID, ok) := GetRequestID ctx in
    if ok then logrus.WithField entry (key_string RequestIDKey) (VString reqID)
    else entry in
  let entry :=
    let '(userID, ok) := GetUserID ctx in
    if ok then logrus.WithField entry (key_string UserIDKey) (VString userID)
    else entry in
  let entry :=
    let '(traceID, ok) := GetTraceID ctx in
    if ok then logrus.WithField entry (key_string TraceIDKey) (VString traceID)
    else entry in
  let entry :=
    let '(spanID, ok) := GetSpanID ctx in
    if ok then logrus.WithField entry (key_string SpanIDKey) (VString spanID)
    else entry in
  let '(customFields, ok) := GetCustomFields ctx in
  if ok then
    map_fold (fun k v entry => logrus.WithField entry k v) entry (deref h customFields)
  else entry.

Definition DebugContextf (l : LogrusLogger) (h : heap) (stack : list Frame)
  (ctx : Context) (format : string) (args : list value) : outcome :=
  let entry := logrus.WithContext ctx in
  let entry := addContextFields h ctx entry in
  Entry_Debugf (Logger l) stack entry format args.

Definition InfoContextf (l : LogrusLogger) (h : heap) (stack : list Frame)
  (ctx : Context) (format : string) (args : list value) : outcome :=
  let entry := logrus.WithContext ctx in
  let entry := addContextFields h ctx entry in
  Entry_Infof (Logger l) stack entry format args.

Definition WarnContextf (l : LogrusLogger) (h : heap) (stack : list Frame)
  (ctx : Context) (format : string) (args : list value) : outcome :=
  let entry := logrus.WithContext ctx in
  let entry := addContextFields h ctx entry in
  Entry_Warnf (Logger l) stack entry format args.

Definition ErrorContextf (l : LogrusLogger) (h : heap) (stack : list Frame)
  (ctx : Context) (format : string) (args : list value) : outcome :=
  let entry := logrus.WithContext ctx in
  let entry := addContextFields h ctx entry in
  Entry_Errorf (Logger l) stack entry format args.

Definition FatalContextf (l : LogrusLogger) (h : heap) (stack : list Frame)
  (ctx : Context) (format : string) (args : list value) : outcome :=
  let entry := logrus.WithContext ctx in
  let entry := addContextFields h ctx entry in
  Entry_Fatalf (Logger l) stack entry format args.

Definition SetLevel (l : LogrusLogger) (level : logrus.Level) : LogrusLogger :=
  let c := config l in
  {| Logger := logrus.SetLevel (Logger l) level;
     config :=
       {| Config.Level := level;
          Config.Format := Config.Format c;
          Config.Output := Config.Output c;
          Config.FilePath := Config.FilePath c;
          Config.EnableJSON := Config.EnableJSON c;
          Config.JSONPretty := Config.JSONPretty c;
          Config.ReportCaller := Config.ReportCaller c;
          Config.TimestampFormat := Config.TimestampFormat c |} |}.

Definition SetOutput (l : LogrusLogger) (output : logrus.Writer) : LogrusLogger :=
  let c := config l in
  {| Logger := logrus.SetOutput (Logger l) output;
     config :=
       {| Config.Level := Config.Level c;
          Config.Format := Config.Format c;
          Config.Output := output;
          Config.FilePath := "";
          Config.EnableJSON := Config.EnableJSON c;
          Config.JSONPretty := Config.JSONPretty c;
          Config.ReportCaller := Config.ReportCaller c;
          Config.TimestampFormat := Config.TimestampFormat c |} |}.

Definition SetFormatter (l : LogrusLogger) (format : LogFormat) : LogrusLogger :=
  let c := config l in
  let json := bool_decide (format = FormatJSON) in
  {| Logger :=
       logrus.SetFormatter (Logger l)
         (if json then
            logrus.JSONFormatter (Config.TimestampFormat c) false false
              (Config.JSONPretty c)
          else logrus.TextFormatter true (Config.TimestampFormat c) true false);
     config :=
       {| Config.Level := Config.Level c;
          Config.Format := format;
          Config.Output := Config.Output c;
          Config.FilePath := Config.FilePath c;
          Config.EnableJSON := json;
          Config.JSONPretty := Config.JSONPretty c;
          Config.ReportCaller := Config.ReportCaller c;
          Config.TimestampFormat := Config.TimestampFormat c |} |}.

(** The five severities the facade logs at, and its methods by
    severity. *)
Inductive Severity : Type :=
  | AtDebug | AtInfo | AtWarn | AtError | AtFatal.

Definition severity_level (s : Severity) : logrus.Level :=
  match s with
  | AtDebug => logrus.DebugLevel
  | AtInfo => logrus.InfoLevel
  | AtWarn => logrus.WarnLevel
  | AtError => logrus.ErrorLevel
  | AtFatal => logrus.FatalLevel
  end.

Definition leveled (s : Severity)
  : LogrusLogger -> list Frame -> string -> list value -> outcome :=
  match s with
  | AtDebug => Debugf
  | AtInfo => Infof
  | AtWarn => Warnf
  | AtError => Errorf
  | AtFatal => Fatalf
  end.

Definition leveled_context (s : Severity)
  : LogrusLogger -> heap -> list Frame -> Context -> string -> list value -> outcome :=
  match s with
  | AtDebug => DebugContextf
  | AtInfo => InfoContextf
  | AtWarn => WarnContextf
  | AtError => ErrorContextf
  | AtFatal => FatalContextf
  end.

(** ** The global registry *)

(** The package variables [globalLogger] and [globalLoggerOnce], the
    standard logger of logrus that the fallback configures, and the
    records the fallback wrote through it. *)
Record Global : Type := {
  globalLogger : option LogrusLogger;
  globalLoggerOnce : bool;
  std : logrus.Logger.t;
  written : list logrus.Entry.t
}.

(** The state of a process that has not touched the registry. *)
Definition fresh : Global :=
  {| globalLogger := None;
     globalLoggerOnce := false;
     std := logrus.New;
     written := [] |}.

(** [once.Do(f)]: [f] runs if no call of [Do] ran before, and the gate
    is closed when it returns. *)
Definition Do (g : Global) (f : Global -> Global) : Global :=
  if globalLoggerOnce g then g
  else
    let g' := f g in
    {| globalLogger := globalLogger g';
       globalLoggerOnce := true;
       std := std g';
       written := written g' |}.

Definition InitGlobalLogger (stack : list Frame) (cfg : Config.t) (g : Global)
  : Global :=
  Do g (fun g =>
    match NewLogger cfg with
    | Err err =>
        let std1 := logrus.SetOutput (std g) (Config.Output cfg) in
        let std2 := logrus.SetLevel std1 logrus.ErrorLevel in
        let o :=
          Entry_Errorf std2 stack logrus.NewEntry
            "Failed to initialize custom logger: %v. Falling back to basic logrus."
            [VError err] in
        {| globalLogger := Some {| Logger := std2; config := cfg |};
           globalLoggerOnce := globalLoggerOnce g;
           std := std2;
           written := written g ++ option_list (emitted o) |}
    | Ok l =>
        {| globalLogger := Some l;
           globalLoggerOnce := globalLoggerOnce g;
           std := std g;
           written := written g |}
    end).

Definition GetGlobalLogger (stack : list Frame) (g : Global)
  : option LogrusLogger * Global :=
  let g' :=
    Do g (fun g =>
      let cfg := DefaultConfig in
      match NewLogger cfg with
      | Err err =>
          let std1 := logrus.SetOutput (std g) (Config.Output cfg) in
          let std2 := logrus.SetLevel std1 logrus.ErrorLevel in
          let o :=
            Entry_Errorf std2 stack logrus.NewEntry
              "Failed to initialize default global logger: %v. Falling back to basic logrus."
              [VError err] in
          {| globalLogger := Some {| Logger := std2; config := cfg |};
             globalLoggerOnce := globalLoggerOnce g;
             std := std2;
             written := written g ++ option_list (emitted o) |}
      | Ok l =>
          {| globalLogger := Some l;
             globalLoggerOnce := globalLoggerOnce g;
             std := std g;
             written := written g |}
      end) in
  (globalLogger g', g').

End Facade.

(** ** The fields a context contributes to a record *)

(** The identifier a context holds under the field name [k], if [k] is the
    name of one of the four identifiers and the reader finds it. *)
Definition found_string (r : string * bool) : option value :=
  if r.2 then Some (VString r.1) else None.

Definition id_field (ctx : Context) (k : string) : option value :=
  if bool_decide (k = "request_id") then found_string (GetRequestID ctx)
  else if bool_decide (k = "user_id") then found_string (GetUserID ctx)
  else if bool_decide (k = "trace_id") then found_string (GetTraceID ctx)
  else if bool_decide (k = "span_id") then found_string (GetSpanID ctx)
  else None.

(** The entry of the bag under [k] when there is one, the identifier of
    that name otherwise. *)
Definition context_field (h : heap) (ctx : Context) (k : string) : option value :=
  match custom_field h ctx k with
  | Some v => Some v
  | None => id_field ctx k
  end.

(** ** Sequences of [With*] calls *)

Inductive With : Type :=
  | CallWithRequestID (reqID : string)
  | CallWithUserID (userID : string)
  | CallWithTraceID (traceID : string)
  | CallWithSpanID (spanID : string)
  | CallWithCustomField (k : string) (v : value).

Definition call (st : heap * Context) (w : With) : heap * Context :=
  match w with
  | CallWithRequestID s => (st.1, WithRequestID st.2 s)
  | CallWithUserID s => (st.1, WithUserID st.2 s)
  | CallWithTraceID s => (st.1, WithTraceID st.2 s)
  | CallWithSpanID s => (st.1, WithSpanID st.2 s)
  | CallWithCustomField k v => WithCustomField st.1 st.2 k v
  end.

Definition calls (st : heap * Context) (ws : list With) : heap * Context :=
  fold_left call ws st.

(** Every map a reader of [ctx] can return was allocated in [h]. *)
Definition allocated (h : heap) (ctx : Context) : bool :=
  match (GetCustomFields ctx).1 with
  | Some r => bool_decide (r < length h)
  | None => true
  end.

(** All that the readers show of a context, the contents of its bag
    included. *)
Record reads : Type := {
  r_request : string * bool;
  r_user : string * bool;
  r_trace : string * bool;
  r_span : string * bool;
  r_custom : option loc * bool;
  r_bag : gmap string value
}.

Definition observe (h : heap) (ctx : Context) : reads :=
  {| r_request := GetRequestID ctx;
     r_user := GetUserID ctx;
     r_trace := GetTraceID ctx;
     r_span := GetSpanID ctx;
     r_custom := GetCustomFields ctx;
     r_bag := deref h (GetCustomFields ctx).1 |}.

(** The layering the specification describes: over what an ancestor
    shows, each call adds its binding, a later binding of a key hiding an
    earlier one. *)
Definition sel_request (w : With) : option string :=
  match w with CallWithRequestID s => Some s | _ => None end.

Definition sel_user (w : With) : option string :=
  match w with CallWithUserID s => Some s | _ => None end.

Definition sel_trace (w : With) : option string :=
  match w with CallWithTraceID s => Some s | _ => None end.

Definition sel_span (w : With) : option string :=
  match w with CallWithSpanID s => Some s | _ => None end.

Definition layer_id (sel : With -> option string) (r : string * bool)
  (ws : list With) : string * bool :=
  fold_left (fun acc w => match sel w with Some s => (s, true) | None => acc end) ws r.

Definition layer_bag (b : gmap string value) (ws : list With) : gmap string value :=
  fold_left
    (fun acc w => match w with CallWithCustomField k v => <[k := v]> acc | _ => acc end)
    ws b.

Definition is_custom (w : With) : bool :=
  match w with CallWithCustomField _ _ => true | _ => false end.

Definition adds_custom (ws : list With) : bool := existsb is_custom ws.

(** Some call of [ws] sets the custom field [k]. *)
Definition sets_field (k : string) (ws : list With) : bool :=
  existsb
    (fun w => match w with CallWithCustomField k' _ => bool_decide (k' = k) | _ => false end)
    ws.

Definition is_string (v : value) : bool :=
  match v with VString _ => true | _ => false end.

Definition is_MetaData (v : value) : bool :=
  match v with VMetaData _ => true | _ => false end.

(** The readers of [st'] show what those of [st] show, with the bindings
    of [ws] laid over it. *)
Definition layered (st st' : heap * Context) (ws : list With) : Prop :=
  GetRequestID st'.2 = layer_id sel_request (GetRequestID st.2) ws /\
  GetUserID st'.2 = layer_id sel_user (GetUserID st.2) ws /\
  GetTraceID st'.2 = layer_id sel_trace (GetTraceID st.2) ws /\
  GetSpanID st'.2 = layer_id sel_span (GetSpanID st.2) ws /\
  (GetCustomFields st'.2).2 = (GetCustomFields st.2).2 || adds_custom ws /\
  deref st'.1 (GetCustomFields st'.2).1
    = layer_bag (deref st.1 (GetCustomFields st.2).1) ws.

(** ** Keys of other packages *)

(** [k] has the package's private type [contextKey]. *)
Definition is_contextKey (k : key) : bool :=
  match k with ContextKey _ => true | _ => false end.

(** The number of [valueCtx] nodes of a chain. *)
Fixpoint depth (ctx : Context) : nat :=
  match ctx with
  | Background => 0
  | valueCtx parent _ _ => S (depth parent)
  end.

(** ** Sequences of setter calls on a logger *)

Inductive Setter : Type :=
  | CallSetLevel (level : logrus.Level)
  | CallSetOutput (output : logrus.Writer)
  | CallSetFormatter (format : LogFormat).

Definition set (l : LogrusLogger) (c : Setter) : LogrusLogger :=
  match c with
  | CallSetLevel level => SetLevel l level
  | CallSetOutput output => SetOutput l output
  | CallSetFormatter format => SetFormatter l format
  end.

Definition sets (l : LogrusLogger) (cs : list Setter) : LogrusLogger :=
  fold_left set cs l.

(** The timestamp format a formatter was built with. *)
Definition timestamp_of (f : logrus.Formatter) : string :=
  match f with
  | logrus.JSONFormatter ts _ _ _ => ts
  | logrus.TextFormatter _ ts _ _ => ts
  end.

(** The stored configuration agrees with the engine. *)
Definition mirrors (l : LogrusLogger) : Prop :=
  logrus.Logger.Level (Logger l) = Config.Level (config l) /\
  logrus.is_JSON (logrus.Logger.Formatter (Logger l))
    = Config.EnableJSON (config l)
      || bool_decide (Config.Format (config l) = FormatJSON) /\
  timestamp_of (logrus.Logger.Formatter (Logger l))
    = Config.TimestampFormat (config l) /\
  logrus.Logger.Hooks (Logger l)
    = (if Config.ReportCaller (config l)
       then [NewCallerHook CallerSkipFrames] else []) /\
  (Config.FilePath (config l) = "" ->
   logrus.Logger.Out (Logger l) = Config.Output (config l)).

(** ** The package-level logging functions *)

(** [log.Debugf] and the like: [GetGlobalLogger().Debugf(format, args...)].
    The result is [None] when the call is made on the nil interface (a
    panic). [init] is the stack inside [GetGlobalLogger], [stack] the one
    inside the method. *)
Module log.
Section Package.

Variable OpenFile : string -> result logrus.Writer.
Variable Sprintf : string -> list value -> string.

Definition on_global (init : list Frame) (g : Global)
  (method : LogrusLogger -> outcome) : option outcome * Global :=
  let '(l, g') := GetGlobalLogger OpenFile Sprintf init g in
  (match l with Some l => Some (method l) | None => None end, g').

Definition Debugf (init stack : list Frame) (format : string) (args : list value)
  (g : Global) : option outcome * Global :=
  on_global init g (fun l => Debugf Sprintf l stack format args).

Definition Infof (init stack : list Frame) (format : string) (args : list value)
  (g : Global) : option outcome * Global :=
  on_global init g (fun l => Infof Sprintf l stack format args).

Definition Warnf (init stack : list Frame) (format : string) (args : list value)
  (g : Global) : option outcome * Global :=
  on_global init g (fun l => Warnf Sprintf l stack format args).

Definition Errorf (init stack : list Frame) (format : string) (args : list value)
  (g : Global) : option outcome * Global :=
  on_global init g (fun l => Errorf Sprintf l stack format args).

Definition Fatalf (init stack : list Frame) (format : string) (args : list value)
  (g : Global) : option outcome * Global :=
  on_global init g (fun l => Fatalf Sprintf l stack format args).

Definition DebugContextf (init stack : list Frame) (h : heap) (ctx : Context)
  (format : string) (args : list value) (g : Global) : option outcome * Global :=
  on_global init g (fun l => DebugContextf Sprintf l h stack ctx format args).

Definition InfoContextf (init stack : list Frame) (h : heap) (ctx : Context)
  (format : string) (args : list value) (g : Global) : option outcome * Global :=
  on_global init g (fun l => InfoContextf Sprintf l h stack ctx format args).

Definition WarnContextf (init stack : list Frame) (h : heap) (ctx : Context)
  (format : string) (args : list value) (g : Global) : option outcome * Global :=
  on_global init g (fun l => WarnContextf Sprintf l h stack ctx format args).

Definition ErrorContextf (init stack : list Frame) (h : heap) (ctx : Context)
  (format : string) (args : list value) (g : Global) : option outcome * Global :=
  on_global init g (fun l => ErrorContextf Sprintf l h stack ctx format args).

Definition FatalContextf (init stack : list Frame) (h : heap) (ctx : Context)
  (format : string) (args : list value) (g : Global) : option outcome * Global :=
  on_global init g (fun l => FatalContextf Sprintf l h stack ctx format args).

(** The package-level functions by severity. *)
Definition leveled (s : Severity)
  : list Frame -> list Frame -> string -> list value -> Global
    -> option outcome * Global :=
  match s with
  | AtDebug => Debugf
  | AtInfo => Infof
  | AtWarn => Warnf
  | AtError => Errorf
  | AtFatal => Fatalf
  end.

Definition leveled_context (s : Severity)
  : list Frame -> list Frame -> heap -> Context -> string -> list value -> Global
    -> option outcome * Global :=
  match s with
  | AtDebug => DebugContextf
  | AtInfo => InfoContextf
  | AtWarn => WarnContextf
  | AtError => ErrorContextf
  | AtFatal => FatalContextf
  end.

End Package.
End log.


(* PROPERTIES *)

(** * Properties of the heap *)

Lemma store_app_last (h : heap) (b : gmap string value) (k : string) (v : value) :
  store (h ++ [b]) (length h) k v = h ++ [<[k := v]> b].
Proof.
  unfold store.
  rewrite lookup_app_r by lia.
  rewrite Nat.sub_diag. simpl.
  replace (length h) with (length h + 0) at 1 by lia.
  by rewrite insert_app_r.
Qed.

Lemma copy_into_fresh (h : heap) (src : gmap string value) :
  copy_into (h ++ [∅]) (length h) src = h ++ [src].
Proof.
  unfold copy_into.
  apply (map_fold_weak_ind (fun r m => r = h ++ [m])); [done|].
  intros k v m r _ ->. apply store_app_last.
Qed.

(** [WithCustomField] in one step: a new bag, the old one's entries and
    the new entry, at a fresh address. *)
Lemma WithCustomField_alloc (h : heap) (ctx : Context) (k : string) (v : value) :
  WithCustomField h ctx k v =
    (h ++ [<[k := v]> (deref h (GetCustomFields ctx).1)],
     valueCtx ctx CustomFieldsKey (VMetaData (Some (length h)))).
Proof.
  unfold WithCustomField, GetCustomFields.
  destruct (Value ctx CustomFieldsKey) as [| | | |[old|]| |]; simpl;
    rewrite ?copy_into_fresh, store_app_last; reflexivity.
Qed.

Lemma deref_prefix (h h' : heap) (m : option loc) :
  h `prefix_of` h' ->
  match m with Some r => r < length h | None => True end ->
  deref h' m = deref h m.
Proof.
  intros [t ->] Hm. destruct m as [r|]; [|done].
  simpl. by rewrite lookup_app_l.
Qed.

(** * Properties of the context field store *)

Lemma Value_unbound (ctx : Context) (k : key) :
  bound k ctx = false -> Value ctx k = VNil.
Proof.
  induction ctx as [|parent IH k' val]; simpl; [done|].
  intros H. apply orb_false_iff in H as [Hk Hp].
  apply bool_decide_eq_false in Hk.
  destruct (decide (k' = k)); [done|auto].
Qed.

Lemma layer_bag_other (k : string) (ws : list With) (b : gmap string value) :
  sets_field k ws = false -> layer_bag b ws !! k = b !! k.
Proof.
  revert b. induction ws as [|w ws IH]; intros b; simpl; [done|].
  intros H. apply orb_false_iff in H as [Hw Hws].
  unfold layer_bag in *. simpl. rewrite IH by done.
  destruct w; try done.
  apply bool_decide_eq_false in Hw. by rewrite lookup_insert_ne.
Qed.

Lemma allocated_lt (h : heap) (c : Context) :
  allocated h c = true ->
  match (GetCustomFields c).1 with Some r => r < length h | None => True end.
Proof.
  unfold allocated. destruct (GetCustomFields c).1; [|done].
  apply bool_decide_eq_true.
Qed.

(** One call: what the new context shows is what its parent shows with
    the binding of the call laid over it; the map it may return is
    allocated, and the heap has only grown. *)
Lemma call_layered (h : heap) (c : Context) (w : With) :
  allocated h c = true ->
  layered (h, c) (call (h, c) w) [w] /\
  allocated (call (h, c) w).1 (call (h, c) w).2 = true /\
  h `prefix_of` (call (h, c) w).1.
Proof.
  intros Ha. destruct w; simpl.
  1-4: (split; [|split; [exact Ha|reflexivity]]);
       repeat split; simpl; try reflexivity; by rewrite orb_false_r.
  rewrite WithCustomField_alloc. split; [|split].
  - repeat split; simpl; try reflexivity.
    + by rewrite orb_true_r.
    + rewrite lookup_app_r by lia. by rewrite Nat.sub_diag.
  - unfold allocated. simpl. apply bool_decide_eq_true.
    rewrite length_app. simpl. lia.
  - by eexists.
Qed.

Lemma calls_layered (ws : list With) (h : heap) (c : Context) :
  allocated h c = true ->
  layered (h, c) (calls (h, c) ws) ws /\
  allocated (calls (h, c) ws).1 (calls (h, c) ws).2 = true /\
  h `prefix_of` (calls (h, c) ws).1.
Proof.
  revert h c. induction ws as [|w ws IH]; intros h c Ha.
  - split; [|split; [exact Ha|reflexivity]].
    repeat split; simpl; try reflexivity. by rewrite orb_false_r.
  - destruct (call_layered h c w Ha) as (L1 & A1 & P1).
    unfold calls. simpl fold_left. fold (calls (call (h, c) w) ws).
    destruct (call (h, c) w) as [h1 c1].
    destruct (IH h1 c1 A1) as (L2 & A2 & P2).
    split; [|split; [exact A2|by etrans]].
    destruct L1 as (a1 & a2 & a3 & a4 & a5 & a6).
    destruct L2 as (b1 & b2 & b3 & b4 & b5 & b6).
    unfold layered, layer_id, layer_bag, adds_custom in *. simpl in *.
    rewrite b1, b2, b3, b4, b5, b6, a1, a2, a3, a4, a5, a6.
    repeat split. by rewrite orb_false_r, orb_assoc.
Qed.

Lemma observe_prefix (h h' : heap) (c : Context) :
  allocated h c = true -> h `prefix_of` h' -> observe h' c = observe h c.
Proof.
  intros Ha Hp. unfold observe. f_equal.
  apply deref_prefix; [done|by apply allocated_lt].
Qed.

(** C1. Two holders [a] and [b] of contexts derived from
    [WithCustomField(base, "k", 1)] (by any further [With*] calls that do
    not set "k"); [b] then calls [WithCustomField(b, "k", 2)]. The first
    holder read 1 for "k" before that call and still reads 1 after it, the
    new context reads 2. The call wrote to a map allocated by the call
    itself: every bag that existed before it is still in the heap with
    the contents it had. *)
Theorem custom_field_branches_independent
  (h : heap) (base : Context) (wsA wsB : list With) :
  sets_field "k" wsA = false ->
  sets_field "k" wsB = false ->
  let shared := WithCustomField h base "k" (VInt 1) in
  let a := calls shared wsA in
  let b := calls (a.1, shared.2) wsB in
  let b' := WithCustomField b.1 b.2 "k" (VInt 2) in
  custom_field b.1 a.2 "k" = Some (VInt 1) /\
  custom_field b'.1 a.2 "k" = Some (VInt 1) /\
  custom_field b'.1 b'.2 "k" = Some (VInt 2) /\
  (GetCustomFields b'.2).1 = Some (length b.1) /\
  b.1 `prefix_of` b'.1.
Proof.
  intros HA HB. cbv zeta.
  rewrite (WithCustomField_alloc h base). simpl.
  set (h1 := h ++ [_]).
  set (s := valueCtx base CustomFieldsKey (VMetaData (Some (length h)))).
  assert (As : allocated h1 s = true).
  { unfold allocated. simpl. apply bool_decide_eq_true.
    unfold h1. rewrite length_app. simpl. lia. }
  assert (Ks : deref h1 (GetCustomFields s).1 !! "k" = Some (VInt 1)).
  { simpl. unfold h1. rewrite lookup_app_r by lia.
    rewrite Nat.sub_diag. simpl. apply lookup_insert_eq. }
  destruct (calls_layered wsA h1 s As) as (LA & AA & PA).
  destruct (calls (h1, s) wsA) as [hA cA]. simpl in *.
  assert (As' : allocated hA s = true).
  { unfold allocated in *. simpl in *. apply bool_decide_eq_true.
    apply bool_decide_eq_true in As. apply prefix_length in PA. lia. }
  assert (Ks' : deref hA (GetCustomFields s).1 !! "k" = Some (VInt 1)).
  { rewrite (deref_prefix h1 hA); [done|done|by apply allocated_lt]. }
  destruct (calls_layered wsB hA s As') as (LB & AB & PB).
  destruct (calls (hA, s) wsB) as [hB cB]. simpl in *.
  rewrite WithCustomField_alloc. simpl.
  assert (KA : custom_field hB cA "k" = Some (VInt 1)).
  { unfold custom_field.
    rewrite (deref_prefix hA hB); [|done|by apply allocated_lt].
    destruct LA as (_ & _ & _ & _ & _ & LA). simpl in LA.
    rewrite LA. by rewrite layer_bag_other. }
  split; [exact KA|]. split; [|split; [|split]].
  - unfold custom_field in *.
    rewrite (deref_prefix hB); [done|by eexists|].
    apply allocated_lt. unfold allocated in *.
    destruct (GetCustomFields cA).1; [|done].
    apply bool_decide_eq_true. apply bool_decide_eq_true in AA.
    apply prefix_length in PB. lia.
  - unfold custom_field. simpl. rewrite lookup_app_r by lia.
    rewrite Nat.sub_diag. simpl. apply lookup_insert_eq.
  - reflexivity.
  - by eexists.
Qed.

Lemma custom_field_branches_independent_witness :
  sets_field "k" [] = false /\
  sets_field "k" [CallWithUserID "u"; CallWithCustomField "j" (VInt 3)] = false /\
  let shared := WithCustomField [] Background "k" (VInt 1) in
  let b := calls shared [CallWithUserID "u"; CallWithCustomField "j" (VInt 3)] in
  let b' := WithCustomField b.1 b.2 "k" (VInt 2) in
  custom_field b'.1 shared.2 "k" = Some (VInt 1) /\
  custom_field b'.1 b'.2 "k" = Some (VInt 2).
Proof.
  split; [reflexivity|]. split; [reflexivity|].
  pose proof (custom_field_branches_independent [] Background []
                [CallWithUserID "u"; CallWithCustomField "j" (VInt 3)]
                eq_refl eq_refl) as H.
  cbv zeta in H. destruct H as (_ & H1 & H2 & _).
  split; [exact H1|exact H2].
Defined.

(** C2. Over any context, any sequence of [With*] calls [ws1] reaching
    an ancestor and any further sequence [ws2] reaching a descendant: the
    descendant's readers return what the ancestor's return with the
    bindings of [ws2] laid over them, the later binding of a key winning
    (for the custom fields: found as soon as the ancestor had a bag or
    [ws2] adds a field, and the bag holds the ancestor's entries and those
    [ws2] adds); and all that the readers return on the ancestor, the
    contents of its bag included, is the same in the heap after [ws2] as
    in the heap before. *)
Theorem with_chain_layers
  (ws1 ws2 : list With) (h : heap) (ctx : Context) :
  allocated h ctx = true ->
  let anc := calls (h, ctx) ws1 in
  let desc := calls anc ws2 in
  GetRequestID desc.2 = layer_id sel_request (GetRequestID anc.2) ws2 /\
  GetUserID desc.2 = layer_id sel_user (GetUserID anc.2) ws2 /\
  GetTraceID desc.2 = layer_id sel_trace (GetTraceID anc.2) ws2 /\
  GetSpanID desc.2 = layer_id sel_span (GetSpanID anc.2) ws2 /\
  (GetCustomFields desc.2).2 = (GetCustomFields anc.2).2 || adds_custom ws2 /\
  deref desc.1 (GetCustomFields desc.2).1
    = layer_bag (deref anc.1 (GetCustomFields anc.2).1) ws2 /\
  observe desc.1 anc.2 = observe anc.1 anc.2.
Proof.
  intros Ha. cbv zeta.
  destruct (calls_layered ws1 h ctx Ha) as (_ & A1 & _).
  destruct (calls (h, ctx) ws1) as [h1 c1]. simpl in A1.
  destruct (calls_layered ws2 h1 c1 A1) as (L2 & _ & P2).
  destruct L2 as (b1 & b2 & b3 & b4 & b5 & b6).
  repeat (split; [assumption|]).
  by apply observe_prefix.
Qed.

Lemma with_chain_layers_witness :
  allocated [] Background = true /\
  let anc := calls ([], Background)
               [CallWithRequestID "r1"; CallWithCustomField "a" (VInt 1)] in
  let desc := calls anc [CallWithRequestID "r2"; CallWithCustomField "b" (VInt 2)] in
  GetRequestID desc.2 = ("r2", true) /\
  deref desc.1 (GetCustomFields desc.2).1 = <["b" := VInt 2]> (<["a" := VInt 1]> ∅) /\
  observe desc.1 anc.2 = observe anc.1 anc.2.
Proof.
  split; [reflexivity|].
  pose proof (with_chain_layers
                [CallWithRequestID "r1"; CallWithCustomField "a" (VInt 1)]
                [CallWithRequestID "r2"; CallWithCustomField "b" (VInt 2)]
                [] Background eq_refl) as H.
  cbv zeta in H. destruct H as (H1 & _ & _ & _ & _ & H6 & H7).
  split; [exact H1|]. split; [exact H6|exact H7].
Defined.

(** C8. A reader whose key is the key of no node of the chain returns
    the zero value and found = false. The readers are total: their result
    is a pair (value, found), there is no error to return, and the
    comma-ok assertion they use does not panic. *)
Theorem get_unbound_not_found (ctx : Context) :
  (bound RequestIDKey ctx = false -> GetRequestID ctx = ("", false)) /\
  (bound UserIDKey ctx = false -> GetUserID ctx = ("", false)) /\
  (bound TraceIDKey ctx = false -> GetTraceID ctx = ("", false)) /\
  (bound SpanIDKey ctx = false -> GetSpanID ctx = ("", false)) /\
  (bound CustomFieldsKey ctx = false -> GetCustomFields ctx = (None, false)).
Proof.
  unfold GetRequestID, GetUserID, GetTraceID, GetSpanID, GetCustomFields.
  repeat split; intros H; by rewrite (Value_unbound _ _ H).
Qed.

Lemma get_unbound_not_found_witness :
  let ctx := WithValue (WithRequestID Background "req-1")
               (StringKey "trace_id") (VString "t") in
  bound UserIDKey ctx = false /\ GetUserID ctx = ("", false) /\
  bound TraceIDKey ctx = false /\ GetTraceID ctx = ("", false) /\
  bound SpanIDKey ctx = false /\ GetSpanID ctx = ("", false) /\
  bound CustomFieldsKey ctx = false /\ GetCustomFields ctx = (None, false) /\
  bound RequestIDKey Background = false /\ GetRequestID Background = ("", false).
Proof.
  cbv zeta.
  destruct (get_unbound_not_found
              (WithValue (WithRequestID Background "req-1")
                 (StringKey "trace_id") (VString "t")))
    as (_ & H2 & H3 & H4 & H5).
  destruct (get_unbound_not_found Background) as (H1 & _).
  repeat apply conj;
    [ reflexivity | apply H2; reflexivity
    | reflexivity | apply H3; reflexivity
    | reflexivity | apply H4; reflexivity
    | reflexivity | apply H5; reflexivity
    | reflexivity | apply H1; reflexivity ].
Defined.

(** C10. When the binding a reader finds for its key (the innermost one)
    holds a value that is not of the reader's type (not a string for the
    four identifiers, not a [MetaData] for the custom fields), the reader
    returns the zero value and found = false, which is what it returns on
    a context where the key is not bound at all. *)
Theorem get_wrong_type_not_found (ctx : Context) :
  (is_string (Value ctx RequestIDKey) = false ->
     GetRequestID ctx = ("", false) /\ GetRequestID ctx = GetRequestID Background) /\
  (is_string (Value ctx UserIDKey) = false ->
     GetUserID ctx = ("", false) /\ GetUserID ctx = GetUserID Background) /\
  (is_string (Value ctx TraceIDKey) = false ->
     GetTraceID ctx = ("", false) /\ GetTraceID ctx = GetTraceID Background) /\
  (is_string (Value ctx SpanIDKey) = false ->
     GetSpanID ctx = ("", false) /\ GetSpanID ctx = GetSpanID Background) /\
  (is_MetaData (Value ctx CustomFieldsKey) = false ->
     GetCustomFields ctx = (None, false) /\
     GetCustomFields ctx = GetCustomFields Background).
Proof.
  unfold GetRequestID, GetUserID, GetTraceID, GetSpanID, GetCustomFields.
  repeat split;
    match goal with
    | H : _ (Value ctx ?k) = false |- _ => destruct (Value ctx k); done
    end.
Qed.

Lemma get_wrong_type_not_found_witness :
  let ctx :=
    WithValue
      (WithValue
         (WithValue
            (WithValue
               (WithValue (WithTraceID Background "trace-xyz")
                  TraceIDKey (VInt 42))
               RequestIDKey (VBool true))
            UserIDKey (VInt 12345))
         SpanIDKey VNil)
      CustomFieldsKey (VMap (Some 0)) in
  is_string (Value ctx TraceIDKey) = false /\ GetTraceID ctx = ("", false) /\
  is_string (Value ctx RequestIDKey) = false /\ GetRequestID ctx = ("", false) /\
  is_string (Value ctx UserIDKey) = false /\ GetUserID ctx = ("", false) /\
  is_string (Value ctx SpanIDKey) = false /\ GetSpanID ctx = ("", false) /\
  is_MetaData (Value ctx CustomFieldsKey) = false /\
  GetCustomFields ctx = (None, false).
Proof.
  intros ctx.
  destruct (get_wrong_type_not_found ctx) as (H1 & H2 & H3 & H4 & H5).
  repeat apply conj;
    [ reflexivity | apply H3; reflexivity
    | reflexivity | apply H1; reflexivity
    | reflexivity | apply H2; reflexivity
    | reflexivity | apply H4; reflexivity
    | reflexivity | apply H5; reflexivity ].
Defined.

(** * Properties of the caller hook *)

Lemma prefix_empty (s : string) : String.prefix "" s = true.
Proof. by destruct s. Qed.

Lemma prefix_byte (c a : ascii) (s : string) :
  String.prefix (String c "") (String a s) = bool_decide (a = c).
Proof.
  simpl. destruct (ascii_dec c a) as [->|Hne].
  - rewrite prefix_empty. by rewrite bool_decide_eq_true_2.
  - rewrite bool_decide_eq_false_2; [done|congruence].
Qed.

(** [LastIndex] for a separator of one byte: -1 exactly when the byte does
    not occur, and otherwise the length of what precedes its last
    occurrence. *)
Lemma LastIndex_byte (c : ascii) (s : string) :
  if occurs c s then
    exists pre t, s = pre +:+ String c t /\ occurs c t = false /\
                  LastIndex s (String c "") = Z.of_nat (String.length pre)
  else LastIndex s (String c "") = (-1)%Z.
Proof.
  induction s as [|a s IH].
  - reflexivity.
  - cbn [occurs LastIndex]. rewrite prefix_byte.
    destruct (occurs c s) eqn:Ho.
    + destruct IH as (pre & t & -> & Ht & Hi).
      rewrite orb_true_r. exists (String a pre), t.
      split; [done|]. split; [done|].
      rewrite Hi. destruct (Z.eqb_spec (Z.of_nat (String.length pre)) (-1)); [lia|].
      cbn [String.length]. lia.
    + rewrite IH, orb_false_r. simpl.
      destruct (bool_decide (a = c)) eqn:E; [|done].
      apply bool_decide_eq_true in E as ->.
      by exists "", s.
Qed.

Lemma drop_bytes_app (pre : string) (c : ascii) (t : string) :
  drop_bytes (S (String.length pre)) (pre +:+ String c t) = t.
Proof. induction pre as [|a pre IH]; [by destruct t|]. exact IH. Qed.

Lemma strip_to_stripped (c : ascii) (s : string) :
  stripped_to_last c s (strip_to (String c "") s).
Proof.
  unfold strip_to. pose proof (LastIndex_byte c s) as H.
  destruct (occurs c s) eqn:E.
  - destruct H as (pre & t & -> & Ht & Hi). right. exists pre.
    rewrite Hi.
    destruct (Z.eqb_spec (Z.of_nat (String.length pre)) (-1)); [lia|].
    unfold slice_from.
    replace (Z.to_nat (Z.of_nat (String.length pre) + 1))
      with (S (String.length pre)) by lia.
    replace (drop_bytes (S (String.length pre)) (pre +:+ String c t)) with t;
      [done|].
    symmetry. apply drop_bytes_app.
  - rewrite H. by left.
Qed.

(** The bare name of a function: what follows the last "/" of its
    qualified name, and of that what follows the last ".". *)
Lemma bare_name_stripped (funcName : string) :
  exists unqualified,
    stripped_to_last "/" funcName unqualified /\
    stripped_to_last "." unqualified (bare_name funcName).
Proof.
  exists (strip_to "/" funcName). split; apply strip_to_stripped.
Qed.

Example bare_name_method :
  bare_name "github.com/sapaude/go-shims/x/log/test.simulateServiceCall"
  = "simulateServiceCall".
Proof. reflexivity. Qed.

Example bare_name_receiver :
  bare_name "github.com/sirupsen/logrus.(*Entry).Logf" = "Logf".
Proof. reflexivity. Qed.

Example bare_name_plain : bare_name "main" = "main".
Proof. reflexivity. Qed.

Example decimal_line : decimal 128 = "128".
Proof. reflexivity. Qed.

(** C6. When [runtime.Caller] finds the frame at the skip count of the
    hook, [Fire] returns no error and sets two fields on the record and
    nothing else: "file" is file://<path>:<line> and "func" is <name>(),
    where <name> is the function name of the frame with everything up to
    its last "/" stripped and then everything up to the last "." of what
    is left stripped. When the frame is not there, [Fire] returns the
    record as it was and no error. *)
Theorem Fire_attaches_caller_fields
  (hook : CallerHook) (stack : list Frame) (entry : logrus.Entry.t) :
  match Caller stack (SkipFrames hook) with
  | Some fr =>
      exists unqualified name,
        stripped_to_last "/" (frame_func fr) unqualified /\
        stripped_to_last "." unqualified name /\
        (Fire hook stack entry).2 = None /\
        logrus.Entry.Data (Fire hook stack entry).1
          = <["func" := VString (name +:+ "()")]>
              (<["file" := VString ("file://" +:+ frame_file fr +:+ ":"
                                     +:+ decimal (frame_line fr))]>
                 (logrus.Entry.Data entry)) /\
        logrus.Entry.Level (Fire hook stack entry).1 = logrus.Entry.Level entry /\
        logrus.Entry.Message (Fire hook stack entry).1 = logrus.Entry.Message entry /\
        logrus.Entry.Context (Fire hook stack entry).1 = logrus.Entry.Context entry
  | None => Fire hook stack entry = (entry, None)
  end.
Proof.
  unfold Fire. destruct (Caller stack (SkipFrames hook)) as [fr|]; [|done].
  destruct (bare_name_stripped (frame_func fr)) as (u & H1 & H2).
  exists u, (bare_name (frame_func fr)). by repeat split.
Qed.

(** The hook on the stack of a call of the package-level [InfoContextf]
    from the test, and on a stack that is too shallow. *)
Example Fire_at_call_site :
  let frame := fun f file line =>
    {| frame_func := f; frame_file := file; frame_line := line |} in
  let stack :=
    [ frame "github.com/sapaude/go-shims/x/log.(*CallerHook).Fire" "caller_hook.go" 43;
      frame "github.com/sirupsen/logrus.LevelHooks.Fire" "hooks.go" 28;
      frame "github.com/sirupsen/logrus.(*Entry).fireHooks" "entry.go" 280;
      frame "github.com/sirupsen/logrus.(*Entry).log" "entry.go" 242;
      frame "github.com/sirupsen/logrus.(*Entry).Log" "entry.go" 304;
      frame "github.com/sirupsen/logrus.(*Entry).Logf" "entry.go" 349;
      frame "github.com/sirupsen/logrus.(*Entry).Infof" "entry.go" 366;
      frame "github.com/sapaude/go-shims/x/log.(*LogrusLogger).InfoContextf" "logger.go" 152;
      frame "github.com/sapaude/go-shims/x/log.InfoContextf" "global.go" 80;
      frame "github.com/sapaude/go-shims/x/log/test.simulateServiceCall" "log_test.go" 16;
      frame "github.com/sapaude/go-shims/x/log/test.TestLogX" "log_test.go" 47 ]%Z in
  Fire (NewCallerHook CallerSkipFrames) stack (logrus.WithContext Background) =
    ({| logrus.Entry.Data :=
          <["func" := VString "simulateServiceCall()"]>
            (<["file" := VString "file://log_test.go:16"]> ∅);
        logrus.Entry.Level := logrus.PanicLevel;
        logrus.Entry.Message := "";
        logrus.Entry.Context := Some Background |}, None).
Proof. reflexivity. Qed.

Example Fire_shallow_stack :
  Fire (NewCallerHook CallerSkipFrames) [] (logrus.WithContext Background) =
    (logrus.WithContext Background, None).
Proof. reflexivity. Qed.

(** * Properties of the logger facade *)

(** C7. [SetOutput(w)] makes [w] the output of the engine and of the
    stored configuration and empties the stored file path; the level, the
    format, [EnableJSON], [JSONPretty], [ReportCaller] and the timestamp
    format of the configuration, and the level, the formatter and the
    hooks of the engine, are what they were. *)
Theorem SetOutput_frame (l : LogrusLogger) (w : logrus.Writer) :
  let l' := SetOutput l w in
  logrus.Logger.Out (Logger l') = w /\
  Config.Output (config l') = w /\
  Config.FilePath (config l') = "" /\
  Config.Level (config l') = Config.Level (config l) /\
  Config.Format (config l') = Config.Format (config l) /\
  Config.EnableJSON (config l') = Config.EnableJSON (config l) /\
  Config.JSONPretty (config l') = Config.JSONPretty (config l) /\
  Config.ReportCaller (config l') = Config.ReportCaller (config l) /\
  Config.TimestampFormat (config l') = Config.TimestampFormat (config l) /\
  logrus.Logger.Level (Logger l') = logrus.Logger.Level (Logger l) /\
  logrus.Logger.Formatter (Logger l') = logrus.Logger.Formatter (Logger l) /\
  logrus.Logger.Hooks (Logger l') = logrus.Logger.Hooks (Logger l).
Proof. by repeat split. Qed.

Lemma NewLogger_Ok (OpenFile : string -> result logrus.Writer)
  (cfg : Config.t) (l : LogrusLogger) :
  NewLogger OpenFile cfg = Ok l ->
  config l = cfg /\
  logrus.Logger.Level (Logger l) = Config.Level cfg /\
  logrus.Logger.Formatter (Logger l) =
    (if Config.EnableJSON cfg || bool_decide (Config.Format cfg = FormatJSON)
     then logrus.JSONFormatter (Config.TimestampFormat cfg) false true
            (Config.JSONPretty cfg)
     else logrus.TextFormatter true (Config.TimestampFormat cfg) true false) /\
  logrus.Logger.Hooks (Logger l) =
    (if Config.ReportCaller cfg then [NewCallerHook CallerSkipFrames] else []).
Proof.
  unfold NewLogger. intros H.
  destruct (bool_decide (Config.FilePath cfg ≠ ""));
    [destruct (OpenFile (Config.FilePath cfg)); [|done]|];
    injection H as <-; simpl;
    destruct (Config.EnableJSON cfg || bool_decide (Config.Format cfg = FormatJSON));
    destruct (Config.ReportCaller cfg); done.
Qed.

Lemma NewLogger_no_file (OpenFile : string -> result logrus.Writer) (cfg : Config.t) :
  Config.FilePath cfg = "" -> exists l, NewLogger OpenFile cfg = Ok l.
Proof.
  intros H. unfold NewLogger. rewrite H. simpl. by eexists.
Qed.

(** C9. The logger [NewLogger] returns has the JSON formatter exactly when
    the configuration has [EnableJSON] set or its format is "json", and
    has the text formatter for every other configuration, whatever the
    format string. On the default configuration [NewLogger] succeeds, and
    the logger has the JSON formatter while its [EnableJSON] is false. *)
Theorem NewLogger_formatter (OpenFile : string -> result logrus.Writer) :
  (forall cfg l, NewLogger OpenFile cfg = Ok l ->
     (logrus.is_JSON (logrus.Logger.Formatter (Logger l)) = true <->
        Config.EnableJSON cfg = true \/ Config.Format cfg = "json") /\
     (logrus.is_JSON (logrus.Logger.Formatter (Logger l)) = true ->
        logrus.Logger.Formatter (Logger l) =
          logrus.JSONFormatter (Config.TimestampFormat cfg) false true
            (Config.JSONPretty cfg)) /\
     (logrus.is_JSON (logrus.Logger.Formatter (Logger l)) = false ->
        logrus.Logger.Formatter (Logger l) =
          logrus.TextFormatter true (Config.TimestampFormat cfg) true false)) /\
  (exists l, NewLogger OpenFile DefaultConfig = Ok l /\
     logrus.is_JSON (logrus.Logger.Formatter (Logger l)) = true /\
     Config.EnableJSON (config l) = false).
Proof.
  split.
  - intros cfg l H. apply NewLogger_Ok in H as (_ & _ & -> & _).
    destruct (Config.EnableJSON cfg) eqn:E1; simpl.
    + split; [|done]. split; [by left|done].
    + case_bool_decide as E2; simpl.
      * split; [|done]. split; [by right|done].
      * split; [|done]. split; [done|]. intros [?|?]; done.
  - destruct (NewLogger_no_file OpenFile DefaultConfig eq_refl) as [l H].
    exists l. split; [done|].
    apply NewLogger_Ok in H as (-> & _ & -> & _). done.
Qed.

Lemma NewLogger_formatter_witness :
  let OpenFile := fun _ : string => @Err logrus.Writer "read-only file system" in
  let cfg :=
    {| Config.Level := logrus.DebugLevel;
       Config.Format := "yaml";
       Config.Output := logrus.Stderr;
       Config.FilePath := "";
       Config.EnableJSON := false;
       Config.JSONPretty := true;
       Config.ReportCaller := false;
       Config.TimestampFormat := "15:04:05" |} in
  let l :=
    {| Logger :=
         {| logrus.Logger.Out := logrus.Stderr;
            logrus.Logger.Hooks := [];
            logrus.Logger.Formatter := logrus.TextFormatter true "15:04:05" true false;
            logrus.Logger.Level := logrus.DebugLevel |};
       config := cfg |} in
  NewLogger OpenFile cfg = Ok l /\
  (logrus.is_JSON (logrus.Logger.Formatter (Logger l)) = false ->
     logrus.Logger.Formatter (Logger l) =
       logrus.TextFormatter true (Config.TimestampFormat cfg) true false).
Proof.
  intros OpenFile cfg l. split; [reflexivity|].
  destruct (NewLogger_formatter OpenFile) as [H _].
  destruct (H cfg l eq_refl) as (_ & _ & H3). exact H3.
Defined.

Lemma Entry_Logf_enabled (Sprintf : string -> list value -> string)
  (logger : logrus.Logger.t) (stack : list Frame) (entry : logrus.Entry.t)
  (level : logrus.Level) (format : string) (args : list value) :
  Entry_Logf Sprintf logger stack entry level format args =
    if (level <=? logrus.Logger.Level logger)%N
    then Some (Entry_log logger stack entry level (Sprintf format args))
    else None.
Proof. reflexivity. Qed.

Lemma leveled_emitted (Sprintf : string -> list value -> string)
  (s : Severity) (l : LogrusLogger) (stack : list Frame)
  (format : string) (args : list value) :
  emitted (leveled Sprintf s l stack format args) =
    Entry_Logf Sprintf (Logger l) stack (logrus.WithContext Background)
      (severity_level s) format args.
Proof. by destruct s. Qed.

Lemma leveled_context_emitted (Sprintf : string -> list value -> string)
  (s : Severity) (l : LogrusLogger) (h : heap) (stack : list Frame)
  (ctx : Context) (format : string) (args : list value) :
  emitted (leveled_context Sprintf s l h stack ctx format args) =
    Entry_Logf Sprintf (Logger l) stack
      (addContextFields h ctx (logrus.WithContext ctx))
      (severity_level s) format args.
Proof. by destruct s. Qed.

(** C5. Let [L] be the threshold of a logger: [SetLevel L] makes it so,
    and so does [NewLogger] on a configuration whose level is [L]. Then
    each of the ten logging methods, at its severity [s], hands a record
    to the writer when [s] is at [L] or more severe (numerically
    [s <= L], the panic level being 0) and hands it nothing when [s] is
    less severe than [L]. *)
Theorem level_threshold
  (OpenFile : string -> result logrus.Writer)
  (Sprintf : string -> list value -> string) (L : logrus.Level) :
  (forall l0, logrus.Logger.Level (Logger (SetLevel l0 L)) = L) /\
  (forall cfg l, Config.Level cfg = L -> NewLogger OpenFile cfg = Ok l ->
     logrus.Logger.Level (Logger l) = L) /\
  (forall l s h stack ctx format args,
     logrus.Logger.Level (Logger l) = L ->
     ((severity_level s <= L)%N ->
        is_Some (emitted (leveled Sprintf s l stack format args)) /\
        is_Some (emitted (leveled_context Sprintf s l h stack ctx format args))) /\
     ((L < severity_level s)%N ->
        emitted (leveled Sprintf s l stack format args) = None /\
        emitted (leveled_context Sprintf s l h stack ctx format args) = None)).
Proof.
  split; [done|]. split.
  - intros cfg l <- H. by apply NewLogger_Ok in H as (_ & -> & _).
  - intros l s h stack ctx format args HL.
    rewrite leveled_emitted, leveled_context_emitted, !Entry_Logf_enabled, HL.
    split; intros Hs.
    + apply N.leb_le in Hs. rewrite Hs. by split.
    + apply N.leb_gt in Hs. by rewrite Hs.
Qed.

Lemma level_threshold_witness :
  let OpenFile := fun path : string => Ok (logrus.File path) in
  let Sprintf := fun (format : string) (_ : list value) => format in
  let cfg :=
    {| Config.Level := logrus.InfoLevel;
       Config.Format := FormatJSON;
       Config.Output := logrus.Stdout;
       Config.FilePath := "x.log";
       Config.EnableJSON := false;
       Config.JSONPretty := false;
       Config.ReportCaller := false;
       Config.TimestampFormat := "" |} in
  exists l,
    NewLogger OpenFile cfg = Ok l /\
    logrus.Logger.Level (Logger l) = logrus.InfoLevel /\
    (logrus.WarnLevel <= logrus.InfoLevel)%N /\
    is_Some (emitted (Warnf Sprintf l [] "careful" [])) /\
    (logrus.InfoLevel < logrus.DebugLevel)%N /\
    emitted (Debugf Sprintf l [] "details" []) = None.
Proof.
  intros OpenFile Sprintf cfg.
  destruct (level_threshold OpenFile Sprintf logrus.InfoLevel) as (_ & H2 & H3).
  eexists. split; [reflexivity|].
  match goal with
  | |- logrus.Logger.Level (Logger ?l) = _ /\ _ =>
      pose proof (H2 cfg l eq_refl eq_refl) as HL;
      pose proof (H3 l AtWarn [] [] Background "careful" [] HL) as [Hw _];
      pose proof (H3 l AtDebug [] [] Background "details" [] HL) as [_ Hd]
  end.
  split; [exact HL|].
  split; [by vm_compute|].
  split; [exact (proj1 (Hw ltac:(by vm_compute)))|].
  split; [by vm_compute|].
  exact (proj1 (Hd ltac:(by vm_compute))).
Defined.

(** The loop of [addContextFields] over the bag: every entry of the bag
    becomes a field, over the fields the entry had. *)
Lemma range_WithField (entry : logrus.Entry.t) (bag : gmap string value) :
  let entry' := map_fold (fun k v e => logrus.WithField e k v) entry bag in
  logrus.Entry.Data entry' = bag ∪ logrus.Entry.Data entry /\
  logrus.Entry.Level entry' = logrus.Entry.Level entry /\
  logrus.Entry.Message entry' = logrus.Entry.Message entry /\
  logrus.Entry.Context entry' = logrus.Entry.Context entry.
Proof.
  cbv zeta.
  apply (map_fold_weak_ind
           (fun r m =>
              logrus.Entry.Data r = m ∪ logrus.Entry.Data entry /\
              logrus.Entry.Level r = logrus.Entry.Level entry /\
              logrus.Entry.Message r = logrus.Entry.Message entry /\
              logrus.Entry.Context r = logrus.Entry.Context entry)).
  - by rewrite (left_id_L ∅ (∪)).
  - intros k v m r _ (HD & HL & HM & HC). simpl.
    rewrite HD. by rewrite insert_union_l.
Qed.




(** The context of the test: three identifiers and two custom fields. *)
Example test_context_fields :
  let st :=
    calls ([], Background)
      [ CallWithRequestID "req-12345"; CallWithTraceID "trace-xyz";
        CallWithUserID "12345"; CallWithCustomField "foo" (VString "bar");
        CallWithCustomField "url" (VString "https://x.com") ] in
  context_field st.1 st.2 <$> ["request_id"; "trace_id"; "user_id"; "span_id"; "foo"; "url"]
  = [ Some (VString "req-12345"); Some (VString "trace-xyz"); Some (VString "12345");
      None; Some (VString "bar"); Some (VString "https://x.com") ].
Proof. by vm_compute. Qed.




(** * Properties of the global registry *)

Lemma Do_done (g : Global) (f : Global -> Global) :
  globalLoggerOnce g = true -> Do g f = g.
Proof. unfold Do. by intros ->. Qed.

Lemma Do_closes (g : Global) (f : Global -> Global) :
  globalLoggerOnce (Do g f) = true.
Proof. unfold Do. by destruct (globalLoggerOnce g) eqn:E. Qed.




(** * Further properties of the context field store *)

(** X1. The keys of the package have a type of their own, so a binding
    under a key of any other type (a plain string with the same text
    included) is not seen by the readers of the package, and the [With*]
    functions of the package do not change what such a key is bound to. *)
Theorem foreign_keys_do_not_collide (ctx : Context) (k : key) (v : value) :
  is_contextKey k = false ->
  (GetRequestID (WithValue ctx k v) = GetRequestID ctx /\
   GetUserID (WithValue ctx k v) = GetUserID ctx /\
   GetTraceID (WithValue ctx k v) = GetTraceID ctx /\
   GetSpanID (WithValue ctx k v) = GetSpanID ctx /\
   GetCustomFields (WithValue ctx k v) = GetCustomFields ctx) /\
  (forall s, Value (WithRequestID ctx s) k = Value ctx k) /\
  (forall s, Value (WithUserID ctx s) k = Value ctx k) /\
  (forall s, Value (WithTraceID ctx s) k = Value ctx k) /\
  (forall s, Value (WithSpanID ctx s) k = Value ctx k) /\
  (forall h f x, Value (WithCustomField h ctx f x).2 k = Value ctx k).
Proof.
  intros Hk. destruct k as [s| |]; [discriminate Hk| |];
    (split; [by repeat split|]);
    repeat split; intros; rewrite ?WithCustomField_alloc; reflexivity.
Qed.

Lemma foreign_keys_do_not_collide_witness :
  let ctx := WithTraceID Background "trace-xyz" in
  is_contextKey (StringKey "trace_id") = false /\
  GetTraceID (WithValue ctx (StringKey "trace_id") (VString "other")) = ("trace-xyz", true) /\
  Value (WithTraceID (WithValue Background (StringKey "trace_id") (VString "other")) "t")
    (StringKey "trace_id") = VString "other".
Proof.
  intros ctx. split; [reflexivity|].
  destruct (foreign_keys_do_not_collide ctx (StringKey "trace_id") (VString "other")
              eq_refl) as ((_ & _ & H3 & _) & _).
  destruct (foreign_keys_do_not_collide
              (WithValue Background (StringKey "trace_id") (VString "other"))
              (StringKey "trace_id") (VString "other") eq_refl)
    as (_ & _ & _ & H4 & _).
  split; [rewrite H3; reflexivity|].
  rewrite H4. reflexivity.
Defined.

Lemma WithCustomField_bag (h : heap) (ctx : Context) (k : string) (v : value) :
  deref (WithCustomField h ctx k v).1 (GetCustomFields (WithCustomField h ctx k v).2).1
  = <[k := v]> (deref h (GetCustomFields ctx).1).
Proof.
  rewrite WithCustomField_alloc. simpl.
  rewrite lookup_app_r by lia. by rewrite Nat.sub_diag.
Qed.

(** X2. After [WithCustomField(ctx, k, v)] the new context has a bag
    (found), at an address that was not allocated before; in it [k] reads
    [v] and every other name reads what it read in the bag of [ctx]. *)
Theorem WithCustomField_lookup
  (h : heap) (ctx : Context) (k : string) (v : value) (k' : string) :
  let st := WithCustomField h ctx k v in
  GetCustomFields st.2 = (Some (length h), true) /\
  custom_field st.1 st.2 k'
    = if decide (k' = k) then Some v else custom_field h ctx k'.
Proof.
  cbv zeta. split; [by rewrite WithCustomField_alloc|].
  unfold custom_field. rewrite WithCustomField_bag.
  destruct (decide (k' = k)) as [->|Hne].
  - apply lookup_insert_eq.
  - by rewrite lookup_insert_ne.
Qed.

(** X3. When [ctx] has no bag to copy (the key is not bound, or bound to
    a value that is not a [MetaData], or bound to the nil map),
    [WithCustomField(ctx, k, v)] starts from an empty map: the new bag
    holds the one entry [k = v]. *)
Theorem WithCustomField_starts_empty
  (h : heap) (ctx : Context) (k : string) (v : value) :
  (GetCustomFields ctx).1 = None ->
  let st := WithCustomField h ctx k v in
  deref st.1 (GetCustomFields st.2).1 = {[ k := v ]}.
Proof.
  intros H. cbv zeta. rewrite WithCustomField_bag, H. simpl.
  by rewrite insert_empty.
Qed.

Lemma WithCustomField_starts_empty_witness :
  let ctx := WithValue Background CustomFieldsKey (VMap (Some 0)) in
  let h : heap := [ {[ "old" := VInt 1 ]} ] in
  (GetCustomFields ctx).1 = None /\
  deref (WithCustomField h ctx "a" (VInt 2)).1
        (GetCustomFields (WithCustomField h ctx "a" (VInt 2)).2).1
  = {[ "a" := VInt 2 ]}.
Proof.
  intros ctx h. split; [reflexivity|].
  exact (WithCustomField_starts_empty h ctx "a" (VInt 2) eq_refl).
Defined.

(** X4. Two [WithCustomField] calls in a row: with the same name the
    second value wins and the bag is the one the second call alone would
    give; with different names the bag does not depend on the order of
    the calls. *)
Theorem WithCustomField_order
  (h : heap) (ctx : Context) (k1 k2 : string) (v1 v2 : value) :
  let bag := fun st : heap * Context => deref st.1 (GetCustomFields st.2).1 in
  let a := WithCustomField h ctx k1 v1 in
  let ab := WithCustomField a.1 a.2 k2 v2 in
  let b := WithCustomField h ctx k2 v2 in
  let ba := WithCustomField b.1 b.2 k1 v1 in
  (k1 = k2 -> bag ab = bag b) /\
  (k1 ≠ k2 -> bag ab = bag ba).
Proof.
  cbv beta zeta. rewrite !WithCustomField_bag. split.
  - intros ->. apply insert_insert_eq.
  - intros Hne. by apply insert_insert_ne.
Qed.

Lemma WithCustomField_order_witness :
  let bag := fun st : heap * Context => deref st.1 (GetCustomFields st.2).1 in
  let a := WithCustomField [] Background "foo" (VString "bar") in
  let ab := WithCustomField a.1 a.2 "url" (VString "https://x.com") in
  let b := WithCustomField [] Background "url" (VString "https://x.com") in
  let ba := WithCustomField b.1 b.2 "foo" (VString "bar") in
  "foo" ≠ "url" /\ bag ab = bag ba.
Proof.
  intros bag a ab b ba.
  assert (H : "foo" ≠ "url") by (by vm_compute).
  split; [exact H|].
  exact (proj2 (WithCustomField_order [] Background "foo" "url"
                  (VString "bar") (VString "https://x.com")) H).
Defined.

Lemma call_grows (h : heap) (c : Context) (w : With) :
  length (call (h, c) w).1 = length h + (if is_custom w then 1 else 0) /\
  depth (call (h, c) w).2 = S (depth c).
Proof.
  destruct w; simpl; try (split; [lia|done]).
  rewrite WithCustomField_alloc. simpl. rewrite length_app. simpl. done.
Qed.

(** X5. A sequence of [With*] calls allocates one map for each
    [WithCustomField] in it and none for the other calls, keeps every map
    that existed as it was, and adds one node to the chain per call. *)
Theorem calls_grow (ws : list With) (h : heap) (ctx : Context) :
  let st := calls (h, ctx) ws in
  length st.1 = length h + length (List.filter is_custom ws) /\
  depth st.2 = depth ctx + length ws /\
  h `prefix_of` st.1.
Proof.
  cbv zeta. revert h ctx. induction ws as [|w ws IH]; intros h ctx.
  - simpl. repeat split; [lia|lia|done].
  - unfold calls. simpl fold_left. fold (calls (call (h, ctx) w) ws).
    destruct (call_grows h ctx w) as (L1 & D1).
    assert (P1 : h `prefix_of` (call (h, ctx) w).1).
    { destruct w; simpl; try done. rewrite WithCustomField_alloc. by eexists. }
    destruct (call (h, ctx) w) as [h1 c1]. simpl in *.
    destruct (IH h1 c1) as (L2 & D2 & P2).
    rewrite L2, D2, L1, D1.
    split; [destruct (is_custom w); simpl; lia|].
    split; [lia|by etrans].
Qed.

(** * Further properties of the caller hook *)

Lemma append_assoc (a b c : string) : (a +:+ b) +:+ c = a +:+ (b +:+ c).
Proof.
  induction a as [|x a IH]; [done|].
  change (String x ((a +:+ b) +:+ c) = String x (a +:+ (b +:+ c))).
  by rewrite IH.
Qed.

Lemma occurs_app (c : ascii) (a b : string) :
  occurs c (a +:+ b) = occurs c a || occurs c b.
Proof.
  induction a as [|x a IH]; [done|].
  change (occurs c (String x (a +:+ b)) = occurs c (String x a) || occurs c b).
  simpl. rewrite IH. by rewrite orb_assoc.
Qed.

Lemma strip_to_facts (c : ascii) (s : string) :
  occurs c (strip_to (String c "") s) = false /\
  (exists pre, s = pre +:+ strip_to (String c "") s) /\
  (occurs c s = false -> strip_to (String c "") s = s).
Proof.
  destruct (strip_to_stripped c s) as [[Hs ->]|(pre & Hs & Ht)].
  - split; [done|]. split; [by exists ""|done].
  - split; [done|]. split.
    + exists (pre +:+ String c ""). rewrite append_assoc. exact Hs.
    + intros Hn. rewrite Hs, occurs_app in Hn. simpl in Hn.
      rewrite bool_decide_eq_true_2 in Hn by done.
      by rewrite orb_true_r in Hn.
Qed.

(** X6. The name [Fire] reports never contains a "/" or a ".", and it is
    the end of the function name of the frame. *)
Theorem bare_name_no_separator (funcName : string) :
  occurs "/" (bare_name funcName) = false /\
  occurs "." (bare_name funcName) = false /\
  exists pre, funcName = pre +:+ bare_name funcName.
Proof.
  unfold bare_name.
  destruct (strip_to_facts "/" funcName) as (N1 & (p1 & E1) & _).
  destruct (strip_to_facts "." (strip_to "/" funcName)) as (N2 & (p2 & E2) & _).
  split; [|split; [exact N2|]].
  - rewrite E2, occurs_app in N1. by apply orb_false_iff in N1 as [_ ?].
  - exists (p1 +:+ p2). rewrite append_assoc, <- E2. exact E1.
Qed.

(** X7. [Fire] reports the function name of the frame as it is exactly
    when that name has no "/" and no ".". *)
Theorem bare_name_unchanged (funcName : string) :
  bare_name funcName = funcName <->
  occurs "/" funcName = false /\ occurs "." funcName = false.
Proof.
  unfold bare_name. split.
  - intros H.
    destruct (strip_to_facts "/" funcName) as (N1 & (p1 & E1) & _).
    destruct (strip_to_facts "." (strip_to "/" funcName)) as (N2 & (p2 & E2) & _).
    rewrite H in N2. split; [|exact N2].
    rewrite H in E2. rewrite E2, occurs_app in N1.
    by apply orb_false_iff in N1 as [_ ?].
  - intros [H1 H2].
    destruct (strip_to_facts "/" funcName) as (_ & _ & I1).
    rewrite (I1 H1).
    destruct (strip_to_facts "." funcName) as (_ & _ & I2).
    exact (I2 H2).
Qed.

Lemma prefix_length_le (a b : string) :
  String.prefix a b = true -> String.length a <= String.length b.
Proof.
  revert a. induction b as [|y b IH]; intros [|x a]; simpl; try done; try lia.
  destruct (ascii_dec x y); [|done]. intros H. apply IH in H. lia.
Qed.

(** X8. [LastIndex] returns -1 or a position of the string at which the
    separator occurs, and the separator occurs at no later position; a
    position it returns for a separator that is not empty is below the
    length of the string, so the slice [funcName[last+1:]] that [Fire]
    takes is within the string. *)
Theorem LastIndex_in_range (s sep : string) :
  (LastIndex s sep = (-1)%Z \/
   (0 <= LastIndex s sep)%Z /\
   (LastIndex s sep + Z.of_nat (String.length sep) <= Z.of_nat (String.length s))%Z /\
   String.prefix sep (slice_from s (LastIndex s sep)) = true) /\
  (forall j : nat,
     (LastIndex s sep < Z.of_nat j)%Z -> j <= String.length s ->
     String.prefix sep (drop_bytes j s) = false).
Proof.
  induction s as [|a s [IH1 IH2]].
  - simpl. destruct sep as [|x sep]; simpl.
    + split; [right; repeat split; lia|]. intros j Hj Hl. lia.
    + split; [by left|]. intros [|j] _ Hl; [done|lia].
  - cbn [LastIndex].
    destruct (Z.eqb_spec (LastIndex s sep) (-1)) as [E|E].
    + destruct (String.prefix sep (String a s)) eqn:P.
      * split.
        -- right. split; [lia|]. split; [|exact P].
           apply prefix_length_le in P. lia.
        -- intros [|j] Hj Hl; [lia|]. simpl. apply IH2; [lia|simpl in Hl; lia].
      * split; [by left|].
        intros [|j] Hj Hl; [exact P|]. simpl. apply IH2; [lia|simpl in Hl; lia].
    + destruct IH1 as [?|(H0 & Hle & Hp)]; [done|]. split.
      * right. split; [lia|]. split; [cbn [String.length]; lia|].
        unfold slice_from in *.
        replace (Z.to_nat (LastIndex s sep + 1)) with (S (Z.to_nat (LastIndex s sep)))
          by lia.
        exact Hp.
      * intros [|j] Hj Hl; [lia|]. simpl. apply IH2; [lia|simpl in Hl; lia].
Qed.

Lemma LastIndex_in_range_witness :
  let s := "github.com/sapaude/go-shims/x/log/test.simulateServiceCall" in
  LastIndex s "/" = 33%Z /\
  (LastIndex s "/" < Z.of_nat 39)%Z /\
  39 <= String.length s /\
  String.prefix "/" (drop_bytes 39 s) = false.
Proof.
  intros s. split; [reflexivity|].
  assert (H1 : (LastIndex s "/" < Z.of_nat 39)%Z) by (by vm_compute).
  assert (H2 : 39 <= String.length s) by (vm_compute; lia).
  split; [exact H1|]. split; [exact H2|].
  exact (proj2 (LastIndex_in_range s "/") 39 H1 H2).
Defined.

(** * Further properties of the logger facade *)

(** X9. [NewLogger] fails exactly when the configuration names a file and
    opening it fails, and the error it returns is the error of the
    opening. *)
Theorem NewLogger_error
  (OpenFile : string -> result logrus.Writer) (cfg : Config.t) (err : string) :
  NewLogger OpenFile cfg = Err err <->
  Config.FilePath cfg ≠ "" /\ OpenFile (Config.FilePath cfg) = Err err.
Proof.
  unfold NewLogger. case_bool_decide as Hp.
  - destruct (OpenFile (Config.FilePath cfg)) as [file|e]; simpl.
    + split; [done|]. by intros [_ ?].
    + split; [by intros [= ->]|]. by intros [_ [= ->]].
  - simpl. split; [done|]. intros [Hne _]. by destruct Hp.
Qed.

(** X10. Without a file path [NewLogger] succeeds whatever the file
    system is, and the logger writes to the [Output] of the
    configuration. With a file path that can be opened it succeeds and the
    logger writes to the file, not to [Output]. In both cases the
    configuration is stored as given. *)
Theorem NewLogger_output
  (OpenFile : string -> result logrus.Writer) (cfg : Config.t) :
  (Config.FilePath cfg = "" ->
   (forall OpenFile', NewLogger OpenFile' cfg = NewLogger OpenFile cfg) /\
   exists l, NewLogger OpenFile cfg = Ok l /\
             logrus.Logger.Out (Logger l) = Config.Output cfg /\
             config l = cfg) /\
  (forall file,
     Config.FilePath cfg ≠ "" -> OpenFile (Config.FilePath cfg) = Ok file ->
     exists l, NewLogger OpenFile cfg = Ok l /\
               logrus.Logger.Out (Logger l) = file /\
               config l = cfg).
Proof.
  split.
  - intros Hp. unfold NewLogger. rewrite Hp. simpl.
    split; [done|]. eexists. split; [done|].
    by destruct (Config.EnableJSON cfg || _), (Config.ReportCaller cfg).
  - intros file Hp Ho. unfold NewLogger.
    rewrite bool_decide_eq_true_2 by done. rewrite Ho.
    eexists. split; [done|].
    by destruct (Config.EnableJSON cfg || _), (Config.ReportCaller cfg).
Qed.

Lemma NewLogger_output_witness :
  let OpenFile := fun path : string => Ok (logrus.File path) in
  let cfg :=
    {| Config.Level := logrus.InfoLevel;
       Config.Format := FormatJSON;
       Config.Output := logrus.Stdout;
       Config.FilePath := "app.log";
       Config.EnableJSON := false;
       Config.JSONPretty := false;
       Config.ReportCaller := true;
       Config.TimestampFormat := "2006-01-02T15:04:05Z07:00" |} in
  Config.FilePath cfg ≠ "" /\
  OpenFile (Config.FilePath cfg) = Ok (logrus.File "app.log") /\
  Config.FilePath DefaultConfig = "" /\
  (exists l, NewLogger OpenFile cfg = Ok l /\
             logrus.Logger.Out (Logger l) = logrus.File "app.log" /\
             config l = cfg) /\
  (exists l, NewLogger OpenFile DefaultConfig = Ok l /\
             logrus.Logger.Out (Logger l) = logrus.Stdout /\
             config l = DefaultConfig).
Proof.
  intros OpenFile cfg.
  assert (Hp : Config.FilePath cfg ≠ "") by (by vm_compute).
  split; [exact Hp|]. split; [reflexivity|]. split; [reflexivity|]. split.
  - exact (proj2 (NewLogger_output OpenFile cfg) (logrus.File "app.log") Hp eq_refl).
  - exact (proj2 (proj1 (NewLogger_output OpenFile DefaultConfig) eq_refl)).
Defined.

Lemma fireHooks_preserves (hooks : list CallerHook) (stack : list Frame)
  (entry : logrus.Entry.t) :
  logrus.Entry.Level (fireHooks hooks stack entry) = logrus.Entry.Level entry /\
  logrus.Entry.Message (fireHooks hooks stack entry) = logrus.Entry.Message entry /\
  logrus.Entry.Context (fireHooks hooks stack entry) = logrus.Entry.Context entry.
Proof.
  revert entry. unfold fireHooks.
  induction hooks as [|hook hooks IH]; intros entry; [done|].
  simpl. destruct (IH (if bool_decide (logrus.Entry.Level entry ∈ Levels hook)
                       then (Fire hook stack entry).1 else entry))
    as (-> & -> & ->).
  case_bool_decide; [|done].
  unfold Fire. by destruct (Caller stack (SkipFrames hook)).
Qed.




Lemma NewLogger_mirrors (OpenFile : string -> result logrus.Writer)
  (cfg : Config.t) (l : LogrusLogger) :
  NewLogger OpenFile cfg = Ok l -> mirrors l.
Proof.
  intros H. pose proof H as H'. apply NewLogger_Ok in H as (Hc & HL & HF & HH).
  unfold mirrors. rewrite Hc, HL, HF, HH. repeat split.
  - by destruct (Config.EnableJSON cfg || _).
  - by destruct (Config.EnableJSON cfg || _).
  - intros Hp. unfold NewLogger in H'. rewrite Hp in H'. simpl in H'.
    injection H' as <-.
    by destruct (Config.EnableJSON cfg || _), (Config.ReportCaller cfg).
Qed.

Lemma set_mirrors (l : LogrusLogger) (c : Setter) :
  mirrors l -> mirrors (set l c).
Proof.
  intros (HL & HF & HT & HH & HO). destruct c as [level|output|format]; simpl.
  - by repeat split.
  - by repeat split.
  - repeat split; simpl; try done;
      by destruct (bool_decide (format = FormatJSON)).
Qed.

Lemma set_keeps (l : LogrusLogger) (c : Setter) :
  Config.ReportCaller (config (set l c)) = Config.ReportCaller (config l) /\
  Config.TimestampFormat (config (set l c)) = Config.TimestampFormat (config l) /\
  Config.JSONPretty (config (set l c)) = Config.JSONPretty (config l).
Proof. by destruct c. Qed.

(** X12. On a logger built by [NewLogger], after any sequence of
    [SetLevel], [SetOutput] and [SetFormatter] calls the stored
    configuration still describes the engine: same level; JSON formatter
    exactly when [EnableJSON] is set or the format is "json"; the
    timestamp format of the formatter is the configured one; the caller
    hook is installed exactly when [ReportCaller] is set; and with an
    empty file path the engine writes to the configured output. The
    setters never change [ReportCaller], the timestamp format or
    [JSONPretty]. *)
Theorem setters_keep_config_in_step
  (OpenFile : string -> result logrus.Writer)
  (cfg : Config.t) (l : LogrusLogger) (cs : list Setter) :
  NewLogger OpenFile cfg = Ok l ->
  let l' := sets l cs in
  logrus.Logger.Level (Logger l') = Config.Level (config l') /\
  logrus.is_JSON (logrus.Logger.Formatter (Logger l'))
    = Config.EnableJSON (config l')
      || bool_decide (Config.Format (config l') = FormatJSON) /\
  timestamp_of (logrus.Logger.Formatter (Logger l'))
    = Config.TimestampFormat (config l') /\
  logrus.Logger.Hooks (Logger l')
    = (if Config.ReportCaller (config l')
       then [NewCallerHook CallerSkipFrames] else []) /\
  (Config.FilePath (config l') = "" ->
   logrus.Logger.Out (Logger l') = Config.Output (config l')) /\
  Config.ReportCaller (config l') = Config.ReportCaller cfg /\
  Config.TimestampFormat (config l') = Config.TimestampFormat cfg /\
  Config.JSONPretty (config l') = Config.JSONPretty cfg.
Proof.
  intros HN. cbv zeta.
  assert (Hc : config l = cfg) by (by apply NewLogger_Ok in HN as (? & _)).
  apply NewLogger_mirrors in HN. rewrite <- Hc. clear Hc.
  assert (G : mirrors (sets l cs) /\
              Config.ReportCaller (config (sets l cs)) = Config.ReportCaller (config l) /\
              Config.TimestampFormat (config (sets l cs))
                = Config.TimestampFormat (config l) /\
              Config.JSONPretty (config (sets l cs)) = Config.JSONPretty (config l)).
  { revert l HN. unfold sets. induction cs as [|c cs IH]; intros l HN; [done|].
    simpl. destruct (IH (set l c) (set_mirrors l c HN)) as (M & -> & -> & ->).
    split; [exact M|]. apply set_keeps. }
  destruct G as ((H1 & H2 & H3 & H4 & H5) & H6 & H7 & H8).
  by repeat split.
Qed.

Lemma setters_keep_config_in_step_witness :
  let OpenFile := fun path : string => Ok (logrus.File path) in
  let cfg :=
    {| Config.Level := logrus.InfoLevel;
       Config.Format := FormatText;
       Config.Output := logrus.Stdout;
       Config.FilePath := "app.log";
       Config.EnableJSON := true;
       Config.JSONPretty := true;
       Config.ReportCaller := true;
       Config.TimestampFormat := "15:04:05" |} in
  let cs := [CallSetLevel logrus.WarnLevel; CallSetFormatter FormatText;
             CallSetOutput logrus.Stderr; CallSetFormatter FormatJSON] in
  exists l,
    NewLogger OpenFile cfg = Ok l /\
    logrus.Logger.Level (Logger (sets l cs)) = Config.Level (config (sets l cs)) /\
    logrus.Logger.Out (Logger (sets l cs)) = logrus.Stderr.
Proof.
  intros OpenFile cfg cs. eexists. split; [reflexivity|].
  pose proof (setters_keep_config_in_step OpenFile cfg _ cs eq_refl) as H.
  cbv zeta in H. destruct H as (H1 & _ & _ & _ & H5 & _).
  split; [exact H1|]. rewrite (H5 eq_refl). reflexivity.
Defined.

(** X13. The three setters act on separate settings: any two different
    setters commute, and of two calls of the same setter the later one
    wins. *)
Theorem setters_commute (l : LogrusLogger)
  (lv lv' : logrus.Level) (w w' : logrus.Writer) (f f' : LogFormat) :
  SetLevel (SetOutput l w) lv = SetOutput (SetLevel l lv) w /\
  SetLevel (SetFormatter l f) lv = SetFormatter (SetLevel l lv) f /\
  SetOutput (SetFormatter l f) w = SetFormatter (SetOutput l w) f /\
  SetLevel (SetLevel l lv) lv' = SetLevel l lv' /\
  SetOutput (SetOutput l w) w' = SetOutput l w' /\
  SetFormatter (SetFormatter l f) f' = SetFormatter l f'.
Proof. by repeat split. Qed.

(** X14. Calling [SetFormatter] with the format the logger was built with
    is not always a no-op. On a logger [NewLogger] built with the text
    formatter it changes nothing. On one built with the JSON formatter it
    changes the formatter: for the format "json" the new JSON formatter
    escapes HTML again ([DisableHTMLEscape] goes from true to false), and
    for any other format (JSON came from [EnableJSON]) the logger turns
    to the text formatter and [EnableJSON] is reset. *)
Theorem SetFormatter_configured_format
  (OpenFile : string -> result logrus.Writer) (cfg : Config.t) (l : LogrusLogger) :
  NewLogger OpenFile cfg = Ok l ->
  let l' := SetFormatter l (Config.Format cfg) in
  (logrus.is_JSON (logrus.Logger.Formatter (Logger l)) = false -> l' = l) /\
  (logrus.is_JSON (logrus.Logger.Formatter (Logger l)) = true ->
   logrus.Logger.Formatter (Logger l)
     = logrus.JSONFormatter (Config.TimestampFormat cfg) false true
         (Config.JSONPretty cfg) /\
   logrus.Logger.Formatter (Logger l')
     = (if bool_decide (Config.Format cfg = FormatJSON)
        then logrus.JSONFormatter (Config.TimestampFormat cfg) false false
               (Config.JSONPretty cfg)
        else logrus.TextFormatter true (Config.TimestampFormat cfg) true false) /\
   logrus.Logger.Formatter (Logger l') ≠ logrus.Logger.Formatter (Logger l) /\
   Config.EnableJSON (config l') = bool_decide (Config.Format cfg = FormatJSON)).
Proof.
  intros HN. cbv zeta. apply NewLogger_Ok in HN as (Hc & HL & HF & HH).
  destruct l as [[out hooks fmt lvl] c]. simpl in *. subst c.
  unfold SetFormatter. simpl. rewrite HF.
  destruct (Config.EnableJSON cfg) eqn:E1; simpl.
  - split; [done|]. intros _. split; [done|]. split; [done|].
    split; [|done]. by case_bool_decide.
  - case_bool_decide as E2; simpl.
    + split; [done|]. intros _. by repeat split.
    + split; [|done]. intros _. f_equal.
      destruct cfg; simpl in *. by subst.
Qed.

Lemma SetFormatter_configured_format_witness :
  let OpenFile := fun path : string => Ok (logrus.File path) in
  exists l,
    NewLogger OpenFile DefaultConfig = Ok l /\
    logrus.is_JSON (logrus.Logger.Formatter (Logger l)) = true /\
    logrus.Logger.Formatter (Logger l)
      = logrus.JSONFormatter "2006/01/02 15:04:05.000" false true false /\
    logrus.Logger.Formatter (Logger (SetFormatter l FormatJSON))
      = logrus.JSONFormatter "2006/01/02 15:04:05.000" false false false.
Proof.
  intros OpenFile. eexists. split; [reflexivity|]. split; [reflexivity|].
  pose proof (SetFormatter_configured_format OpenFile DefaultConfig _ eq_refl) as H.
  cbv zeta in H. destruct H as [_ H]. destruct (H eq_refl) as (H1 & H2 & _).
  split; [exact H1|exact H2].
Defined.

Lemma addContextFields_unbound (h : heap) (ctx : Context) (entry : logrus.Entry.t) :
  bound RequestIDKey ctx = false -> bound UserIDKey ctx = false ->
  bound TraceIDKey ctx = false -> bound SpanIDKey ctx = false ->
  bound CustomFieldsKey ctx = false ->
  addContextFields h ctx entry = entry.
Proof.
  intros H1 H2 H3 H4 H5.
  unfold addContextFields, GetRequestID, GetUserID, GetTraceID, GetSpanID,
    GetCustomFields.
  by rewrite (Value_unbound _ _ H1), (Value_unbound _ _ H2), (Value_unbound _ _ H3),
    (Value_unbound _ _ H4), (Value_unbound _ _ H5).
Qed.

Lemma fireHooks_Data_ext (hooks : list CallerHook) (stack : list Frame)
  (e1 e2 : logrus.Entry.t) :
  logrus.Entry.Data e1 = logrus.Entry.Data e2 ->
  logrus.Entry.Level e1 = logrus.Entry.Level e2 ->
  logrus.Entry.Data (fireHooks hooks stack e1)
  = logrus.Entry.Data (fireHooks hooks stack e2).
Proof.
  revert e1 e2. unfold fireHooks.
  induction hooks as [|hook hooks IH]; intros e1 e2 HD HL; [done|].
  simpl. apply IH; rewrite HL; case_bool_decide; try done;
    unfold Fire; destruct (Caller stack (SkipFrames hook)); simpl; by rewrite ?HD.
Qed.

(** X15. A context-aware call on a context in which none of the five keys
    of the package is bound does what the plain call of the same level
    does: both emit or neither does, the records have the same fields,
    level and message, and the process exits in the one case as in the
    other. The record of the context-aware call carries the context. On
    [context.Background()] the two calls give the same outcome. *)
Theorem context_call_without_bindings
  (Sprintf : string -> list value -> string) (s : Severity) (l : LogrusLogger)
  (h : heap) (stack : list Frame) (ctx : Context)
  (format : string) (args : list value) :
  bound RequestIDKey ctx = false -> bound UserIDKey ctx = false ->
  bound TraceIDKey ctx = false -> bound SpanIDKey ctx = false ->
  bound CustomFieldsKey ctx = false ->
  let with_ctx := leveled_context Sprintf s l h stack ctx format args in
  let plain := leveled Sprintf s l stack format args in
  exited with_ctx = exited plain /\
  match emitted with_ctx, emitted plain with
  | Some r, Some r' =>
      logrus.Entry.Data r = logrus.Entry.Data r' /\
      logrus.Entry.Level r = logrus.Entry.Level r' /\
      logrus.Entry.Message r = logrus.Entry.Message r' /\
      logrus.Entry.Context r = Some ctx
  | None, None => True
  | _, _ => False
  end /\
  leveled_context Sprintf s l h stack Background format args = plain.
Proof.
  intros H1 H2 H3 H4 H5. cbv zeta.
  split; [by destruct s|]. split; [|by destruct s].
  rewrite leveled_context_emitted, leveled_emitted, !Entry_Logf_enabled.
  rewrite addContextFields_unbound by done.
  destruct (severity_level s <=? logrus.Logger.Level (Logger l))%N; [|done].
  unfold Entry_log.
  pose proof (fireHooks_preserves (logrus.Logger.Hooks (Logger l)) stack) as P.
  split; [by apply fireHooks_Data_ext|].
  split; [by rewrite !(proj1 (P _))|].
  split; [by rewrite !(proj1 (proj2 (P _)))|].
  by rewrite (proj2 (proj2 (P _))).
Qed.

Lemma context_call_without_bindings_witness :
  let Sprintf := fun (format : string) (_ : list value) => format in
  let l :=
    {| Logger := logrus.AddHook logrus.New (NewCallerHook CallerSkipFrames);
       config := DefaultConfig |} in
  let ctx := WithValue Background (StringKey "request_id") (VString "r") in
  bound RequestIDKey ctx = false /\ bound UserIDKey ctx = false /\
  bound TraceIDKey ctx = false /\ bound SpanIDKey ctx = false /\
  bound CustomFieldsKey ctx = false /\
  exited (WarnContextf Sprintf l [] [] ctx "careful" [])
  = exited (Warnf Sprintf l [] "careful" []).
Proof.
  intros Sprintf l ctx. repeat (split; [reflexivity|]).
  pose proof (context_call_without_bindings Sprintf AtWarn l [] [] ctx "careful" []
                eq_refl eq_refl eq_refl eq_refl eq_refl) as H.
  cbv zeta in H. exact (proj1 H).
Defined.

Lemma addContextFields_Context (h : heap) (ctx : Context) (entry : logrus.Entry.t) :
  logrus.Entry.Context (addContextFields h ctx entry) = logrus.Entry.Context entry.
Proof.
  unfold addContextFields.
  destruct (GetRequestID ctx) as [s1 [|]], (GetUserID ctx) as [s2 [|]],
    (GetTraceID ctx) as [s3 [|]], (GetSpanID ctx) as [s4 [|]],
    (GetCustomFields ctx) as [m [|]]; try done;
    match goal with
    | |- context [map_fold ?f ?e ?b] =>
        by destruct (range_WithField e b) as (_ & _ & _ & ->)
    end.
Qed.

(** X16. The record a logging call emits has the level of the method
    called, the message [Sprintf(format, args...)] and, for a
    context-aware call, the context passed ([context.Background()] for a
    plain call); the hooks do not change any of the three. *)
Theorem record_level_message_context
  (Sprintf : string -> list value -> string) (s : Severity) (l : LogrusLogger)
  (h : heap) (stack : list Frame) (ctx : Context)
  (format : string) (args : list value) (r : logrus.Entry.t) :
  (emitted (leveled_context Sprintf s l h stack ctx format args) = Some r ->
   logrus.Entry.Level r = severity_level s /\
   logrus.Entry.Message r = Sprintf format args /\
   logrus.Entry.Context r = Some ctx) /\
  (emitted (leveled Sprintf s l stack format args) = Some r ->
   logrus.Entry.Level r = severity_level s /\
   logrus.Entry.Message r = Sprintf format args /\
   logrus.Entry.Context r = Some Background).
Proof.
  rewrite leveled_context_emitted, leveled_emitted, !Entry_Logf_enabled.
  destruct (severity_level s <=? logrus.Logger.Level (Logger l))%N; [|done].
  unfold Entry_log. split; intros [= <-];
    match goal with
    | |- context [fireHooks ?hs ?st ?e] =>
        destruct (fireHooks_preserves hs st e) as (-> & -> & ->)
    end; simpl; [|done].
  by rewrite (addContextFields_Context h ctx).
Qed.

Lemma record_level_message_context_witness :
  let Sprintf := fun (format : string) (_ : list value) => format in
  let l :=
    {| Logger := logrus.AddHook logrus.New (NewCallerHook CallerSkipFrames);
       config := DefaultConfig |} in
  let ctx := WithTraceID Background "trace-XYZ" in
  exists r,
    emitted (ErrorContextf Sprintf l [] [] ctx "An error occurred" []) = Some r /\
    logrus.Entry.Level r = logrus.ErrorLevel /\
    logrus.Entry.Message r = "An error occurred" /\
    logrus.Entry.Context r = Some ctx.
Proof.
  intros Sprintf l ctx. eexists. split; [reflexivity|].
  exact (proj1 (record_level_message_context Sprintf AtError l [] [] ctx
                  "An error occurred" [] _) eq_refl).
Defined.

(** X17. Of the ten methods only [Fatalf] and [FatalContextf] end the
    process, and they do so whether or not the record was emitted: on a
    logger whose threshold is the panic level they write nothing and
    still exit. *)
Theorem only_fatal_exits
  (Sprintf : string -> list value -> string) (s : Severity) (l : LogrusLogger)
  (h : heap) (stack : list Frame) (ctx : Context)
  (format : string) (args : list value) :
  exited (leveled Sprintf s l stack format args)
    = match s with AtFatal => true | _ => false end /\
  exited (leveled_context Sprintf s l h stack ctx format args)
    = match s with AtFatal => true | _ => false end /\
  (logrus.Logger.Level (Logger l) = logrus.PanicLevel ->
   Fatalf Sprintf l stack format args = {| emitted := None; exited := true |} /\
   FatalContextf Sprintf l h stack ctx format args
     = {| emitted := None; exited := true |}).
Proof.
  split; [by destruct s|]. split; [by destruct s|].
  intros HL. unfold Fatalf, FatalContextf, Entry_Fatalf.
  rewrite !Entry_Logf_enabled, HL. done.
Qed.

Lemma only_fatal_exits_witness :
  let Sprintf := fun (format : string) (_ : list value) => format in
  let l := SetLevel {| Logger := logrus.New; config := DefaultConfig |}
             logrus.PanicLevel in
  logrus.Logger.Level (Logger l) = logrus.PanicLevel /\
  Fatalf Sprintf l [] "giving up" [] = {| emitted := None; exited := true |}.
Proof.
  intros Sprintf l. split; [reflexivity|].
  destruct (only_fatal_exits Sprintf AtFatal l [] [] Background "giving up" [])
    as (_ & _ & H).
  exact (proj1 (H eq_refl)).
Defined.

(** * Further properties of the global registry *)

Lemma NewLogger_DefaultConfig (OpenFile : string -> result logrus.Writer) :
  NewLogger OpenFile DefaultConfig =
    Ok {| Logger :=
            {| logrus.Logger.Out := logrus.Stdout;
               logrus.Logger.Hooks := [NewCallerHook CallerSkipFrames];
               logrus.Logger.Formatter :=
                 logrus.JSONFormatter "2006/01/02 15:04:05.000" false true false;
               logrus.Logger.Level := logrus.InfoLevel |};
          config := DefaultConfig |}.
Proof. reflexivity. Qed.

Lemma GetGlobalLogger_first
  (OpenFile : string -> result logrus.Writer)
  (Sprintf : string -> list value -> string) (stack : list Frame) (g : Global)
  (l : LogrusLogger) :
  globalLoggerOnce g = false ->
  NewLogger OpenFile DefaultConfig = Ok l ->
  GetGlobalLogger OpenFile Sprintf stack g
    = (Some l, {| globalLogger := Some l; globalLoggerOnce := true;
                  std := std g; written := written g |}).
Proof.
  intros Hg Hl. unfold GetGlobalLogger, Do. by rewrite Hg, Hl.
Qed.

(** X18. The first use of the registry through [GetGlobalLogger] builds
    the logger from [DefaultConfig], which cannot fail whatever the file
    system is: the logger returned writes JSON to standard output at the
    info level with the caller hook installed; the standard logger of
    logrus is left as it was and nothing is written. *)
Theorem GetGlobalLogger_defaults
  (OpenFile : string -> result logrus.Writer)
  (Sprintf : string -> list value -> string) (stack : list Frame) (g : Global) :
  globalLoggerOnce g = false ->
  exists l,
    GetGlobalLogger OpenFile Sprintf stack g
      = (Some l, {| globalLogger := Some l; globalLoggerOnce := true;
                    std := std g; written := written g |}) /\
    config l = DefaultConfig /\
    logrus.Logger.Level (Logger l) = logrus.InfoLevel /\
    logrus.Logger.Out (Logger l) = logrus.Stdout /\
    logrus.is_JSON (logrus.Logger.Formatter (Logger l)) = true /\
    logrus.Logger.Hooks (Logger l) = [NewCallerHook CallerSkipFrames].
Proof.
  intros Hg. eexists. split.
  - apply GetGlobalLogger_first; [exact Hg|apply NewLogger_DefaultConfig].
  - by repeat split.
Qed.

Lemma GetGlobalLogger_defaults_witness :
  let OpenFile := fun _ : string => @Err logrus.Writer "read-only file system" in
  let Sprintf := fun (format : string) (_ : list value) => format in
  globalLoggerOnce fresh = false /\
  exists l,
    (GetGlobalLogger OpenFile Sprintf [] fresh).1 = Some l /\
    logrus.Logger.Level (Logger l) = logrus.InfoLevel.
Proof.
  intros OpenFile Sprintf. split; [reflexivity|].
  destruct (GetGlobalLogger_defaults OpenFile Sprintf [] fresh eq_refl)
    as (l & H1 & _ & H3 & _).
  exists l. split; [by rewrite H1|exact H3].
Defined.

(** X19. [GetGlobalLogger] closes the gate: an [InitGlobalLogger] after it
    changes nothing, whatever its configuration, and a second
    [GetGlobalLogger] returns the same logger and changes nothing. *)
Theorem GetGlobalLogger_closes_gate
  (OpenFile1 OpenFile2 : string -> result logrus.Writer)
  (Sprintf : string -> list value -> string)
  (stack1 stack2 : list Frame) (cfg : Config.t) (g : Global) :
  let r := GetGlobalLogger OpenFile1 Sprintf stack1 g in
  InitGlobalLogger OpenFile2 Sprintf stack2 cfg r.2 = r.2 /\
  GetGlobalLogger OpenFile2 Sprintf stack2 r.2 = r.
Proof.
  cbv zeta. unfold GetGlobalLogger at 2 4 5. simpl. split.
  - unfold InitGlobalLogger. apply Do_done, Do_closes.
  - unfold GetGlobalLogger. rewrite Do_done; [done|apply Do_closes].
Qed.








Lemma on_global_closed
  (OpenFile : string -> result logrus.Writer)
  (Sprintf : string -> list value -> string) (init : list Frame) (g : Global)
  (l : LogrusLogger) (method : LogrusLogger -> outcome) :
  globalLoggerOnce g = true -> globalLogger g = Some l ->
  log.on_global OpenFile Sprintf init g method = (Some (method l), g).
Proof.
  intros Hg Hl. unfold log.on_global, GetGlobalLogger.
  rewrite Do_done by done. by rewrite Hl.
Qed.

(** X22. Once the registry holds a logger, a package-level logging
    function does what the method of the same name does on that logger
    and leaves the registry as it is. *)
Theorem package_functions_delegate
  (OpenFile : string -> result logrus.Writer)
  (Sprintf : string -> list value -> string) (s : Severity)
  (init stack : list Frame) (h : heap) (ctx : Context)
  (format : string) (args : list value) (g : Global) (l : LogrusLogger) :
  globalLoggerOnce g = true -> globalLogger g = Some l ->
  log.leveled OpenFile Sprintf s init stack format args g
    = (Some (leveled Sprintf s l stack format args), g) /\
  log.leveled_context OpenFile Sprintf s init stack h ctx format args g
    = (Some (leveled_context Sprintf s l h stack ctx format args), g).
Proof.
  intros Hg Hl.
  destruct s; split;
    unfold log.leveled, log.leveled_context, log.Debugf, log.Infof, log.Warnf,
      log.Errorf, log.Fatalf, log.DebugContextf, log.InfoContextf,
      log.WarnContextf, log.ErrorContextf, log.FatalContextf;
    by rewrite (on_global_closed _ _ _ _ l).
Qed.

Lemma package_functions_delegate_witness :
  let Sprintf := fun (format : string) (_ : list value) => format in
  let OpenFile := fun path : string => Ok (logrus.File path) in
  let cfg :=
    {| Config.Level := logrus.DebugLevel;
       Config.Format := FormatJSON;
       Config.Output := logrus.Stdout;
       Config.FilePath := "";
       Config.EnableJSON := false;
       Config.JSONPretty := false;
       Config.ReportCaller := false;
       Config.TimestampFormat := "" |} in
  let g := InitGlobalLogger OpenFile Sprintf [] cfg fresh in
  exists l,
    globalLoggerOnce g = true /\ globalLogger g = Some l /\
    log.Debugf OpenFile Sprintf [] [] "This is a debug message" [] g
      = (Some (Debugf Sprintf l [] "This is a debug message" []), g).
Proof.
  intros Sprintf OpenFile cfg g. eexists.
  split; [reflexivity|]. split; [reflexivity|].
  exact (proj1 (package_functions_delegate OpenFile Sprintf AtDebug [] [] []
                  Background "This is a debug message" [] g _ eq_refl eq_refl)).
Defined.

(** X23. A package-level logging function called before any
    [InitGlobalLogger] sets the registry up from [DefaultConfig] and logs
    with that logger: at the default info threshold a debug call writes
    nothing and every other call writes its record. The gate is closed by
    that call, so an [InitGlobalLogger] made afterwards is ignored. *)
Theorem package_first_use_locks_defaults
  (OpenFile : string -> result logrus.Writer)
  (Sprintf : string -> list value -> string) (s : Severity)
  (init stack : list Frame) (format : string) (args : list value) (g : Global) :
  globalLoggerOnce g = false ->
  let r := log.leveled OpenFile Sprintf s init stack format args g in
  (exists l,
     NewLogger OpenFile DefaultConfig = Ok l /\
     r.1 = Some (leveled Sprintf s l stack format args) /\
     globalLogger r.2 = Some l) /\
  match s with
  | AtDebug => r.1 ≫= emitted = None
  | _ => is_Some (r.1 ≫= emitted)
  end /\
  (forall OpenFile' stack' cfg,
     InitGlobalLogger OpenFile' Sprintf stack' cfg r.2 = r.2).
Proof.
  intros Hg. cbv zeta.
  pose proof (NewLogger_DefaultConfig OpenFile) as Hl.
  set (l := {| Logger := _; config := DefaultConfig |}) in Hl.
  pose proof (GetGlobalLogger_first OpenFile Sprintf init g l Hg Hl) as HG.
  assert (Hr : log.leveled OpenFile Sprintf s init stack format args g
               = (Some (leveled Sprintf s l stack format args),
                  {| globalLogger := Some l; globalLoggerOnce := true;
                     std := std g; written := written g |})).
  { destruct s; unfold log.leveled, log.Debugf, log.Infof, log.Warnf, log.Errorf,
      log.Fatalf, log.on_global; by rewrite HG. }
  rewrite Hr. simpl. split; [by exists l|]. split.
  - by destruct s.
  - intros. unfold InitGlobalLogger. by apply Do_done.
Qed.

Lemma package_first_use_locks_defaults_witness :
  let Sprintf := fun (format : string) (_ : list value) => format in
  let OpenFile := fun path : string => Ok (logrus.File path) in
  let cfg :=
    {| Config.Level := logrus.DebugLevel;
       Config.Format := FormatText;
       Config.Output := logrus.Stderr;
       Config.FilePath := "";
       Config.EnableJSON := false;
       Config.JSONPretty := false;
       Config.ReportCaller := false;
       Config.TimestampFormat := "" |} in
  let r := log.Infof OpenFile Sprintf [] [] "starting" [] fresh in
  globalLoggerOnce fresh = false /\
  InitGlobalLogger OpenFile Sprintf [] cfg r.2 = r.2.
Proof.
  intros Sprintf OpenFile cfg r. split; [reflexivity|].
  pose proof (package_first_use_locks_defaults OpenFile Sprintf AtInfo [] []
                "starting" [] fresh eq_refl) as H.
  cbv zeta in H. destruct H as (_ & _ & H). exact (H OpenFile [] cfg).
Defined.
